(** * PictoPy image routes: list, toggle-favourite, download

    A shallow embedding of [backend/app/routes/images.py].  The three
    FastAPI handlers are written as computations in a small monad that
    threads the repository state and the log and carries Python
    exceptions, so that [try]/[except] reads as in the source.

    Collaborators whose code is outside the module (the image repository,
    the metadata parser, pydantic's field validators, [os.path.exists] and
    Python's [str]) are section variables. *)

From Stdlib Require Import ZArith Ascii String List Bool Lia.
From stdpp Require Import base option list strings gmap pretty.

Local Open Scope Z_scope.
Local Open Scope string_scope.

(** ** Python values and exceptions *)

#[local] Set Warnings "-register-all".

(** The values a repository row can hold.  A float is kept as its
    binary64 bit pattern: the handlers never compute with it. *)
Inductive pyval : Type :=
  | PNone
  | PBool (b : bool)
  | PInt (z : Z)
  | PFloat (bits : Z)
  | PStr (s : string)
  | PList (l : list pyval)
  | PDict (kvs : list (string * pyval)).

(** A raw image record is a [dict] with string keys. *)
Abbreviation record := (gmap string pyval).

(** [ErrorResponse(success=..., error=..., message=...)]. *)
Record ErrorResponse : Type := mkErrorResponse {
  err_success : bool;
  err_error : string;
  err_message : string
}.

(** The [detail] of an [HTTPException]: a plain string, or the dumped
    [ErrorResponse] model. *)
Inductive detail : Type :=
  | DetailStr (s : string)
  | DetailModel (e : ErrorResponse).

(** The exceptions that occur in the handlers. *)
Inductive exn : Type :=
  | HTTPException (status_code : Z) (d : detail)
  | KeyError (key : string)
  | AttributeError (msg : string)
  | TypeError (msg : string)
  | ValidationError (fields : list string)
  | OtherException (msg : string).

Definition HTTP_500_INTERNAL_SERVER_ERROR : Z := 500.

(** [isinstance(e, HTTPException)] *)
Definition is_HTTPException (e : exn) : bool :=
  match e with HTTPException _ _ => true | _ => false end.

(** ** Response models *)

Record MetadataModel : Type := mkMetadataModel {
  name : string;
  date_created : option string;
  width : Z;
  height : Z;
  file_location : string;
  file_size : Z;
  item_type : string;
  latitude : option Z;   (* float, as its bit pattern *)
  longitude : option Z;  (* float, as its bit pattern *)
  location : option string
}.

Record ImageData : Type := mkImageData {
  id : string;
  path : string;
  folder_id : string;
  thumbnailPath : string;
  metadata : MetadataModel;
  isTagged : bool;
  isFavourite : bool;
  tags : option (list string)
}.

Record GetAllImagesResponse : Type := mkGetAllImagesResponse {
  success : bool;
  message : string;
  data : list ImageData
}.

Record ToggleFavouriteRequest : Type := mkToggleFavouriteRequest {
  image_id : string
}.

(** The dict literal returned by [toggle_favourite]; its [isFavourite]
    entry is whatever value the record holds. *)
Record ToggleFavouriteResult : Type := mkToggleFavouriteResult {
  tf_success : bool;
  tf_image_id : string;
  tf_isFavourite : pyval
}.

Record FileResponse : Type := mkFileResponse {
  fr_path : pyval;
  fr_filename : string;
  fr_media_type : string
}.

(** ** Logging *)

Inductive level : Type := INFO | ERROR.

Definition log_record : Type := level * string.

(** ** String helpers: [str.replace], [str.rfind], slicing *)

Module PyStr.

(** [s.replace(old, new)] for one-character [old] and [new]. *)
Fixpoint replace (old new : ascii) (s : string) : string :=
  match s with
  | EmptyString => EmptyString
  | String a s' =>
      String (if Ascii.eqb a old then new else a) (replace old new s')
  end.

(** Index of the last occurrence of [c] in [s], the first character of
    [s] having index [i]; [-1] when there is none. *)
Fixpoint rfind_from (c : ascii) (s : string) (i : Z) : Z :=
  match s with
  | EmptyString => -1
  | String a s' =>
      let r := rfind_from c s' (i + 1) in
      if (0 <=? r)%Z then r else if Ascii.eqb a c then i else -1
  end.

Definition rfind (c : ascii) (s : string) : Z := rfind_from c s 0.

(** [s[i:]] for [0 <= i]. *)
Fixpoint drop (n : nat) (s : string) : string :=
  match n, s with
  | O, _ => s
  | S _, EmptyString => EmptyString
  | S n', String _ s' => drop n' s'
  end.

Definition slice_from (i : Z) (s : string) : string := drop (Z.to_nat i) s.

(** [s.split(c)]: the segments of [s] between occurrences of [c]. *)
Fixpoint split (c : ascii) (s : string) : list string :=
  match s with
  | EmptyString => [EmptyString]
  | String a s' =>
      if Ascii.eqb a c then EmptyString :: split c s'
      else match split c s' with
           | seg :: segs => String a seg :: segs
           | [] => [String a EmptyString]
           end
  end.

Fixpoint contains (c : ascii) (s : string) : bool :=
  match s with
  | EmptyString => false
  | String a s' => Ascii.eqb a c || contains c s'
  end.

End PyStr.

Definition backslash : ascii := "\"%char.
Definition slash : ascii := "/"%char.

(** [posixpath.basename]: [i = p.rfind('/') + 1; return p[i:]]. *)
Definition basename (p : string) : string :=
  let i := PyStr.rfind slash p + 1 in
  PyStr.slice_from i p.

(** [os.path.basename(file_path.replace("\\", "/"))] *)
Definition suggested_filename (file_path : string) : string :=
  basename (PyStr.replace backslash slash file_path).

(** The spec's wording of the same: the last segment of the path once
    both separators are read as one. *)
Definition last_path_segment (file_path : string) : string :=
  List.last (PyStr.split slash (PyStr.replace backslash slash file_path))
            EmptyString.

(** ** The handler monad: repository state, log, exceptions *)

Instance exn_ret : MRet (sum exn) := λ A x, inr x.
Instance exn_bind : MBind (sum exn) := λ A B f m,
  match m with
  | inl e => inl e
  | inr x => f x
  end.

(** [image[key]] on a dict: [KeyError] when the key is missing. *)
Definition getitem (image : record) (key : string) : exn + pyval :=
  match image !! key with
  | Some v => inr v
  | None => inl (KeyError key)
  end.

(** [image.get(key, dflt)] *)
Definition get (image : record) (key : string) (dflt : pyval) : pyval :=
  default dflt (image !! key).

(** [v == s] for a [str] [s]: values of another type are never equal to it. *)
Definition eq_str (v : pyval) (s : string) : bool :=
  match v with
  | PStr s' => String.eqb s' s
  | _ => false
  end.

(** [next((img for img in images if img["id"] == image_id), None)] *)
Fixpoint next_by_id (images : list record) (image_id : string)
  : exn + option record :=
  match images with
  | [] => inr None
  | img :: rest =>
      v ← getitem img "id";
      if eq_str v image_id then inr (Some img) else next_by_id rest image_id
  end.

(** [not image], for [image] a dict or [None]: an empty dict is falsy. *)
Definition py_not (image : option record) : bool :=
  match image with
  | None => true
  | Some img => Nat.eqb (size img) 0
  end.

Definition type_name (v : pyval) : string :=
  match v with
  | PNone => "NoneType"
  | PBool _ => "bool"
  | PInt _ => "int"
  | PFloat _ => "float"
  | PStr _ => "str"
  | PList _ => "list"
  | PDict _ => "dict"
  end.

(** [v.replace("\\", "/")]: only a [str] has the method. *)
Definition replace_backslashes (v : pyval) : exn + string :=
  match v with
  | PStr s => inr (PyStr.replace backslash slash s)
  | _ => inl (AttributeError
                ("'" ++ type_name v ++ "' object has no attribute 'replace'"))
  end.

(** [for x in l] collecting [f x], stopping at the first exception. *)
Fixpoint map_exn {A B : Type} (f : A → exn + B) (l : list A) : exn + list B :=
  match l with
  | [] => inr []
  | x :: l' => y ← f x; ys ← map_exn f l'; inr (y :: ys)
  end.

(** The state a request runs in: the repository and the log written so far. *)
Record state (db : Type) : Type := mkState {
  st_db : db;
  st_log : list log_record
}.
Arguments mkState {db} _ _.
Arguments st_db {db} _.
Arguments st_log {db} _.

(** A handler body: it reads and writes the state and either returns a
    value or raises. *)
Definition Py (db A : Type) : Type := state db → (exn + A) * state db.

Section Monad.
Context {db : Type}.

Definition py_ret {A} (x : A) : Py db A := λ s, (inr x, s).

Definition py_bind {A B} (f : A → Py db B) (m : Py db A) : Py db B :=
  λ s, match m s with
       | (inr x, s') => f x s'
       | (inl e, s') => (inl e, s')
       end.

(** [raise e] *)
Definition raise {A} (e : exn) : Py db A := λ s, (inl e, s).

(** A pure computation that may raise. *)
Definition lift {A} (r : exn + A) : Py db A := λ s, (r, s).

(** [try: body except Exception as e: handler e] *)
Definition try_except {A} (body : Py db A) (handler : exn → Py db A)
  : Py db A :=
  λ s, match body s with
       | (inr x, s') => (inr x, s')
       | (inl e, s') => handler e s'
       end.

Definition logger_info (msg : string) : Py db unit :=
  λ s, (inr tt, mkState (st_db s) (st_log s ++ [(INFO, msg)])).

Definition logger_error (msg : string) : Py db unit :=
  λ s, (inr tt, mkState (st_db s) (st_log s ++ [(ERROR, msg)])).

End Monad.

Instance py_mret {db} : MRet (Py db) := λ A, py_ret.
Instance py_mbind {db} : MBind (Py db) := λ A B, py_bind.

(** ** The handlers *)

Section Routes.

(** The image repository ([app.database.images]). *)
Context {db : Type}.
Variable db_get_all_images : db → option bool → exn + list record.
Variable db_toggle_image_favourite_status :
  db → string → (exn + bool) * db.

(** [app.utils.images.image_util_parse_metadata]. *)
Variable image_util_parse_metadata : pyval → exn + pyval.

(** pydantic's validation of one field of a model, by field type:
    [str], [bool], [Optional[List[str]]] and [MetadataModel]. *)
Variable validate_str : pyval → option string.
Variable validate_bool : pyval → option bool.
Variable validate_tags : pyval → option (option (list string)).
Variable validate_metadata : pyval → option MetadataModel.

(** [os.path.exists]. *)
Variable os_path_exists : pyval → exn + bool.

(** [str(v)] and [str(e)], as f-strings interpolate them. *)
Variable str_val : pyval → string.
Variable str_exn : exn → string.

Definition call_db_get_all_images (tagged : option bool)
  : Py db (list record) :=
  λ s, (db_get_all_images (st_db s) tagged, s).

Definition call_db_toggle_image_favourite_status (image_id : string)
  : Py db bool :=
  λ s, let '(r, d) := db_toggle_image_favourite_status (st_db s) image_id in
       (r, mkState d (st_log s)).

Definition failed {A} (field : string) (o : option A) : list string :=
  match o with Some _ => [] | None => [field] end.

(** [ImageData(id=..., ...)]: every field is validated; one
    [ValidationError] reports all the fields that failed. *)
Definition ImageData_init
  (id_ path_ folder_id_ thumbnailPath_ metadata_ isTagged_ isFavourite_
     tags_ : pyval) : exn + ImageData :=
  match validate_str id_, validate_str path_, validate_str folder_id_,
        validate_str thumbnailPath_, validate_metadata metadata_,
        validate_bool isTagged_, validate_bool isFavourite_,
        validate_tags tags_ with
  | Some i, Some p, Some f, Some t, Some m, Some tg, Some fv, Some ts =>
      inr (mkImageData i p f t m tg fv ts)
  | i, p, f, t, m, tg, fv, ts =>
      inl (ValidationError
             (failed "id" i ++ failed "path" p ++ failed "folder_id" f ++
              failed "thumbnailPath" t ++ failed "metadata" m ++
              failed "isTagged" tg ++ failed "isFavourite" fv ++
              failed "tags" ts))
  end.

(** One element of the list comprehension of [get_all_images]. *)
Definition image_to_ImageData (image : record) : exn + ImageData :=
  id_ ← getitem image "id";
  path_ ← getitem image "path";
  folder_id_ ← getitem image "folder_id";
  thumbnailPath_ ← getitem image "thumbnailPath";
  raw_metadata ← getitem image "metadata";
  metadata_ ← image_util_parse_metadata raw_metadata;
  isTagged_ ← getitem image "isTagged";
  let isFavourite_ := get image "isFavourite" (PBool false) in
  tags_ ← getitem image "tags";
  ImageData_init id_ path_ folder_id_ thumbnailPath_ metadata_ isTagged_
                 isFavourite_ tags_.

Definition get_all_images (tagged : option bool)
  : Py db GetAllImagesResponse :=
  try_except
    (images ← call_db_get_all_images tagged;
     image_data ← lift (map_exn image_to_ImageData images);
     mret (mkGetAllImagesResponse
             true
             ("Successfully retrieved " ++ pretty (length image_data)
                ++ " images")
             image_data))
    (λ e,
       raise (HTTPException
                HTTP_500_INTERNAL_SERVER_ERROR
                (DetailModel
                   (mkErrorResponse
                      false
                      "Internal server error"
                      ("Unable to retrieve images: " ++ str_exn e))))).

(** [image.get("isFavourite", False)] where [image] may be [None]. *)
Definition get_isFavourite (image : option record) : exn + pyval :=
  match image with
  | Some img => inr (get img "isFavourite" (PBool false))
  | None => inl (AttributeError "'NoneType' object has no attribute 'get'")
  end.

Definition toggle_favourite (req : ToggleFavouriteRequest)
  : Py db ToggleFavouriteResult :=
  let image_id := image_id req in
  try_except
    (success ← call_db_toggle_image_favourite_status image_id;
     (if negb success
      then raise (HTTPException
                    404 (DetailStr "Image not found or failed to toggle"))
      else mret tt);;
     images ← call_db_get_all_images None;
     image ← lift (next_by_id images image_id);
     fav ← lift (get_isFavourite image);
     mret (mkToggleFavouriteResult true image_id fav))
    (λ e,
       logger_error ("error in /toggle-favourite route: " ++ str_exn e);;
       raise (HTTPException
                500 (DetailStr ("Internal server error: " ++ str_exn e)))).

(** [image["path"]] where [image] may be [None]. *)
Definition get_path (image : option record) : exn + pyval :=
  match image with
  | Some img => getitem img "path"
  | None => inl (TypeError "'NoneType' object is not subscriptable")
  end.

Definition download_image (image_id : string) : Py db FileResponse :=
  try_except
    (logger_info ("Attempting to download image with ID: " ++ image_id);;
     images ← call_db_get_all_images None;
     image ← lift (next_by_id images image_id);
     (if py_not image
      then logger_error
             ("Image ID " ++ image_id ++ " not found in database");;
           raise (HTTPException 404 (DetailStr "Image not found"))
      else mret tt);;
     file_path ← lift (get_path image);
     logger_info ("Found image. Path: " ++ str_val file_path);;
     file_exists ← lift (os_path_exists file_path);
     (if negb file_exists
      then logger_error
             ("File does not exist on disk at path: " ++ str_val file_path);;
           raise (HTTPException 404 (DetailStr "File not found on disk"))
      else mret tt);;
     normalized ← lift (replace_backslashes file_path);
     let filename := basename normalized in
     mret (mkFileResponse
             file_path
             filename
             "application/octet-stream"))
    (λ e,
       if is_HTTPException e
       then raise e
       else
         (logger_error
            ("Error downloading image " ++ image_id ++ ": " ++ str_exn e);;
          raise (HTTPException
                   500 (DetailStr ("Internal server error: " ++ str_exn e))))).

(** The error raised by the [except] clause of [get_all_images], and the
    one raised by the catch-all clauses of the other two handlers. *)
Definition list_error (e : exn) : exn :=
  HTTPException
    500
    (DetailModel
       (mkErrorResponse false "Internal server error"
                        ("Unable to retrieve images: " ++ str_exn e))).

Definition internal_error (e : exn) : exn :=
  HTTPException 500 (DetailStr ("Internal server error: " ++ str_exn e)).

(** The metadata of a record fails normalization: the parser raises, or
    what it returns is not a valid [MetadataModel]. *)
Definition metadata_fails (image : record) : bool :=
  match image !! "metadata" with
  | None => false
  | Some raw =>
      match image_util_parse_metadata raw with
      | inl _ => true
      | inr parsed =>
          match validate_metadata parsed with
          | Some _ => false
          | None => true
          end
      end
  end.

End Routes.

Arguments get_all_images {db} _ _ _ _ _ _ _ _ _.
Arguments toggle_favourite {db} _ _ _ _ _.
Arguments download_image {db} _ _ _ _ _ _.

(** An error in the shape the spec gives every failure: status 400, 404
    or 500 and a body [{success: false, error, message}]. *)
Definition structured_error (e : exn) : Prop :=
  ∃ status_code body,
    e = HTTPException status_code (DetailModel body) ∧
    (status_code = 400 ∨ status_code = 404 ∨ status_code = 500) ∧
    err_success body = false.

(** A collaborator that is not FastAPI code: what it raises is never an
    [HTTPException]. *)
Definition no_http {A B : Type} (f : A → exn + B) : Prop :=
  ∀ x e, f x = inl e → is_HTTPException e = false.

(** ** The image repository *)

Module Repository.

(** Modelled from the spec: the stored image of the data model
    ([app.database.images] is not part of this module).  [isFavourite]
    may be unset in storage; [tags] is an optional ordered sequence of
    labels. *)
Record row : Type := mkRow {
  row_id : string;
  row_path : string;
  row_folder_id : string;
  row_thumbnailPath : string;
  row_metadata : pyval;
  row_isFavourite : option bool;
  row_tags : option (list string)
}.

(** Modelled from the spec: the store of the repository, in the order
    in which the repository lists it. *)
Definition store : Type := list row.

(** Modelled from the spec: [isTagged] is derived, true iff [tags] is
    non-empty. *)
Definition row_isTagged (r : row) : bool :=
  match row_tags r with
  | Some (_ :: _) => true
  | _ => false
  end.

(** Modelled from the spec: the raw record handed to the routes, with
    the keys the routes read; [isFavourite] is left out when unset. *)
Definition raw_of_row (r : row) : record :=
  let fields : record :=
    <["id" := PStr (row_id r)]>
    (<["path" := PStr (row_path r)]>
    (<["folder_id" := PStr (row_folder_id r)]>
    (<["thumbnailPath" := PStr (row_thumbnailPath r)]>
    (<["metadata" := row_metadata r]>
    (<["isTagged" := PBool (row_isTagged r)]>
    (<["tags" := match row_tags r with
                 | Some ts => PList (PStr <$> ts)
                 | None => PNone
                 end]> ∅)))))) in
  match row_isFavourite r with
  | Some b => <["isFavourite" := PBool b]> fields
  | None => fields
  end.

(** Modelled from the spec: the filter of [listImages(taggedFilter)]:
    when it is present an image passes iff its [isTagged] matches it,
    when it is absent every image passes. *)
Definition tag_matches (tagged : option bool) (r : row) : bool :=
  match tagged with
  | Some t => Bool.eqb (row_isTagged r) t
  | None => true
  end.

(** Modelled from the spec: [listImages(taggedFilter)], the missing
    [db_get_all_images]: the raw records of the images that pass the
    filter, in the repository's order. *)
Definition db_get_all_images (st : store) (tagged : option bool)
  : exn + list record :=
  inr (raw_of_row <$> List.filter (tag_matches tagged) st).

(** The images a listing with filter [tagged] is to return, read off the
    [tags] of the stored image: with [true] those whose [tags] is
    non-empty, with [false] those whose [tags] is empty or absent,
    without a filter all. *)
Definition selected (tagged : option bool) (r : row) : bool :=
  match tagged, row_tags r with
  | None, _ => true
  | Some true, Some (_ :: _) => true
  | Some true, _ => false
  | Some false, Some (_ :: _) => false
  | Some false, _ => true
  end.

(** Modelled from the spec: [id] identifies the stored image. *)
Definition has_id (image_id : string) (r : row) : bool :=
  String.eqb (row_id r) image_id.

(** Modelled from the spec: the flip of the boolean [isFavourite], which
    is [false] when unset in storage. *)
Definition flip_favourite (r : row) : row :=
  mkRow (row_id r) (row_path r) (row_folder_id r) (row_thumbnailPath r)
        (row_metadata r)
        (Some (negb (default false (row_isFavourite r))))
        (row_tags r).

(** Modelled from the spec: [toggleFavouriteStatus(id)], the missing
    [db_toggle_image_favourite_status]: it flips the boolean
    [isFavourite] of the image and returns whether the toggle applied. *)
Definition db_toggle_image_favourite_status (st : store) (image_id : string)
  : (exn + bool) * store :=
  if existsb (has_id image_id) st
  then (inr true,
        (λ r, if has_id image_id r then flip_favourite r else r) <$> st)
  else (inr false, st).

End Repository.

(** ** A concrete instance of the other collaborators

    Used to run the handlers on examples: validators that accept exactly
    the values of the declared field type, a metadata parser that hands a
    dict through, a file system given by the list of existing paths, and
    [str] as Python and Starlette print the values that occur. *)

Module Instance.

Definition validate_str (v : pyval) : option string :=
  match v with PStr s => Some s | _ => None end.

Definition validate_bool (v : pyval) : option bool :=
  match v with PBool b => Some b | _ => None end.

Definition validate_int (v : pyval) : option Z :=
  match v with PInt z => Some z | _ => None end.

Definition validate_float (v : pyval) : option Z :=
  match v with PFloat bits => Some bits | _ => None end.

Definition validate_optional {A} (f : pyval → option A) (v : pyval)
  : option (option A) :=
  match v with
  | PNone => Some None
  | _ => Some <$> f v
  end.

Definition validate_tags (v : pyval) : option (option (list string)) :=
  validate_optional
    (λ v, match v with
          | PList l => mapM validate_str l
          | _ => None
          end) v.

Fixpoint assoc (k : string) (kvs : list (string * pyval)) : option pyval :=
  match kvs with
  | [] => None
  | (k', v) :: kvs' => if String.eqb k' k then Some v else assoc k kvs'
  end.

(** A field declared with default [None]. *)
Definition optional_field {A} (f : pyval → option A) (k : string)
  (kvs : list (string * pyval)) : option (option A) :=
  match assoc k kvs with
  | None => Some None
  | Some v => validate_optional f v
  end.

(** [MetadataModel] validated from a dict, field by field as declared. *)
Definition validate_metadata (v : pyval) : option MetadataModel :=
  match v with
  | PDict kvs =>
      n ← assoc "name" kvs ≫= validate_str;
      dc ← assoc "date_created" kvs ≫= validate_optional validate_str;
      w ← assoc "width" kvs ≫= validate_int;
      h ← assoc "height" kvs ≫= validate_int;
      fl ← assoc "file_location" kvs ≫= validate_str;
      fs ← assoc "file_size" kvs ≫= validate_int;
      it ← assoc "item_type" kvs ≫= validate_str;
      lat ← optional_field validate_float "latitude" kvs;
      lon ← optional_field validate_float "longitude" kvs;
      loc ← optional_field validate_str "location" kvs;
      Some (mkMetadataModel n dc w h fl fs it lat lon loc)
  | _ => None
  end.

Definition image_util_parse_metadata (v : pyval) : exn + pyval := inr v.

Definition os_path_exists (files : list string) (v : pyval) : exn + bool :=
  match v with
  | PStr p => inr (existsb (String.eqb p) files)
  | _ => inl (TypeError "stat: path should be string, bytes, os.PathLike or integer")
  end.

Definition str_val (v : pyval) : string :=
  match v with
  | PStr s => s
  | PNone => "None"
  | PBool true => "True"
  | PBool false => "False"
  | PInt z => pretty z
  | _ => "<" ++ type_name v ++ ">"
  end.

Definition str_detail (d : detail) : string :=
  match d with
  | DetailStr s => s
  | DetailModel e => err_message e
  end.

Definition str_exn (e : exn) : string :=
  match e with
  | HTTPException c d => pretty c ++ ": " ++ str_detail d
  | KeyError k => "'" ++ k ++ "'"
  | AttributeError m => m
  | TypeError m => m
  | ValidationError fields =>
      pretty (length fields) ++ " validation errors for ImageData"
  | OtherException m => m
  end.

Definition list_images :=
  get_all_images Repository.db_get_all_images image_util_parse_metadata
    validate_str validate_bool validate_tags validate_metadata str_exn.

Definition toggle :=
  toggle_favourite Repository.db_get_all_images
    Repository.db_toggle_image_favourite_status str_exn.

Definition download (files : list string) :=
  download_image Repository.db_get_all_images (os_path_exists files)
    str_val str_exn.

Definition jpeg_metadata : pyval :=
  PDict [("name", PStr "photo.jpg"); ("date_created", PNone);
         ("width", PInt 640); ("height", PInt 480);
         ("file_location", PStr "/var/images/photo.jpg");
         ("file_size", PInt 1024); ("item_type", PStr "image/jpeg")].

(** The seeded record of the spec's end-to-end property:
    [{id:"1", isFavourite:false, tags:[]}]. *)
Definition seeded : Repository.row :=
  Repository.mkRow "1" "/var/images/photo.jpg" "7" "/thumbs/1.jpg"
                   jpeg_metadata (Some false) (Some []).

(** The same image with [isFavourite] unset in storage. *)
Definition unset : Repository.row :=
  Repository.mkRow "1" "/var/images/photo.jpg" "7" "/thumbs/1.jpg"
                   jpeg_metadata None (Some []).

End Instance.


(** A repository in which the image is deleted right after the toggle
    was applied: the concurrent deletion between write and re-read. *)
Module Vanishing.

Definition db_toggle_image_favourite_status
  (st : Repository.store) (image_id : string)
  : (exn + bool) * Repository.store :=
  let '(r, st') :=
    Repository.db_toggle_image_favourite_status st image_id in
  (r, List.filter (λ r, negb (Repository.has_id image_id r)) st').

Definition toggle :=
  toggle_favourite Repository.db_get_all_images
    db_toggle_image_favourite_status Instance.str_exn.

End Vanishing.

(** A repository that applies the toggle out of the listed records: the
    records it lists never carry the [isFavourite] key. *)
Module Flagless.

Definition db_toggle_image_favourite_status
  (st : Repository.store) (image_id : string)
  : (exn + bool) * Repository.store :=
  (inr (existsb (Repository.has_id image_id) st), st).

Definition toggle :=
  toggle_favourite Repository.db_get_all_images
    db_toggle_image_favourite_status Instance.str_exn.

End Flagless.

(** Stored images used in the examples. *)
Module Examples.

(** An image whose stored metadata is not a metadata dict. *)
Definition broken : Repository.row :=
  Repository.mkRow "2" "/var/images/broken.jpg" "7" "/thumbs/2.jpg"
                   PNone (Some false) (Some []).

(** An image with two labels. *)
Definition labelled : Repository.row :=
  Repository.mkRow "3" "/var/images/cat.jpg" "7" "/thumbs/3.jpg"
                   Instance.jpeg_metadata (Some true) (Some ["cat"; "pet"]).

(** An image without [tags]. *)
Definition untagged : Repository.row :=
  Repository.mkRow "4" "/var/images/sky.jpg" "7" "/thumbs/4.jpg"
                   Instance.jpeg_metadata (Some false) None.

(** An image stored under a Windows path. *)
Definition windows : Repository.row :=
  Repository.mkRow "5" "C:\images\photo.jpg" "7" "C:\thumbs\5.jpg"
                   Instance.jpeg_metadata (Some false) (Some []).

Definition request (image_id : string) : ToggleFavouriteRequest :=
  mkToggleFavouriteRequest image_id.

Definition start (st : Repository.store) : state Repository.store :=
  mkState st [].

End Examples.

(** ** Further repositories and records for the examples *)

(** A repository that lists the records it is given as they are, and
    reports every toggle as applied. *)
Module RawStore.

Definition db_get_all_images (st : list record) (tagged : option bool)
  : exn + list record :=
  inr st.

Definition db_toggle_image_favourite_status
  (st : list record) (image_id : string) : (exn + bool) * list record :=
  (inr true, st).

Definition list_images :=
  get_all_images db_get_all_images Instance.image_util_parse_metadata
    Instance.validate_str Instance.validate_bool Instance.validate_tags
    Instance.validate_metadata Instance.str_exn.

Definition toggle :=
  toggle_favourite db_get_all_images db_toggle_image_favourite_status
    Instance.str_exn.

Definition download (files : list string) :=
  download_image db_get_all_images (Instance.os_path_exists files)
    Instance.str_val Instance.str_exn.

End RawStore.

(** A repository out of order: every call raises the exception that its
    state holds. *)
Module Failing.

Definition db_get_all_images (st : exn) (tagged : option bool)
  : exn + list record :=
  inl st.

Definition db_toggle_image_favourite_status (st : exn) (image_id : string)
  : (exn + bool) * exn :=
  (inl st, st).

Definition list_images :=
  get_all_images db_get_all_images Instance.image_util_parse_metadata
    Instance.validate_str Instance.validate_bool Instance.validate_tags
    Instance.validate_metadata Instance.str_exn.

Definition toggle :=
  toggle_favourite db_get_all_images db_toggle_image_favourite_status
    Instance.str_exn.

Definition download :=
  download_image db_get_all_images (Instance.os_path_exists [])
    Instance.str_val Instance.str_exn.

End Failing.

(** Records that are not as the routes expect them. *)
Module Malformed.

Definition good : record := Repository.raw_of_row Instance.seeded.

Definition other : record := Repository.raw_of_row Examples.labelled.

(** The seeded record without its ["tags"] key. *)
Definition no_tags : record := delete "tags" good.

(** The seeded record without its ["id"] key. *)
Definition no_id : record := delete "id" good.

(** The seeded record without its ["path"] key. *)
Definition no_path : record := delete "path" good.

(** The seeded record with [isFavourite] stored as [None]. *)
Definition null_flag : record := <["isFavourite" := PNone]> good.



(** A record marked as tagged that holds no [tags]. *)
Definition tagged_without_tags : record :=
  <["isTagged" := PBool true]> (Repository.raw_of_row Examples.untagged).


End Malformed.

(** A repository whose toggle works and whose listing is out of order. *)
Module Unreadable.

Definition db_get_all_images (st : Repository.store) (tagged : option bool)
  : exn + list record :=
  inl (OtherException "database is locked").

Definition toggle :=
  toggle_favourite db_get_all_images
    Repository.db_toggle_image_favourite_status Instance.str_exn.

End Unreadable.

(** The keys [get_all_images] reads with [image[key]]. *)
Definition required_keys : list string :=
  ["id"; "path"; "folder_id"; "thumbnailPath"; "metadata"; "isTagged";
   "tags"].

(** A record that is scanned by the generator without matching: it has
    an id, and the id is not the one asked for. *)
Definition passed_over (image_id : string) (img : record) : Prop :=
  ∃ v, img !! "id" = Some v ∧ eq_str v image_id = false.

(** * Properties *)

(** Unfolds the monad of the handlers down to functions on the state. *)
Ltac run :=
  unfold try_except, call_db_get_all_images,
    call_db_toggle_image_favourite_status, logger_error, logger_info,
    lift, raise, mbind, mret, py_mbind, py_mret, py_bind, py_ret in *;
  cbn [st_db st_log fst snd] in *.

(** ** File names *)

Lemma last_Forall {A} (P : A → Prop) (l : list A) (d : A) :
  P d → Forall P l → P (List.last l d).
Proof.
  intros Hd. induction 1 as [|x l Hx Hl IH]; [done|].
  destruct l; [done|]. exact IH.
Qed.

Section PathFacts.

Variable c : ascii.

Lemma rfind_from_contains (s : string) (i : Z) :
  (0 <= i)%Z →
  if PyStr.contains c s
  then (i <= PyStr.rfind_from c s i)%Z
  else PyStr.rfind_from c s i = (-1)%Z.
Proof.
  revert i. induction s as [|a s IH]; intros i Hi; cbn; [done|].
  specialize (IH (i + 1)%Z ltac:(lia)).
  destruct (PyStr.contains c s).
  - rewrite orb_true_r.
    destruct (Z.leb_spec 0 (PyStr.rfind_from c s (i + 1))); lia.
  - rewrite IH, orb_false_r. cbn. destruct (Ascii.eqb a c); lia.
Qed.

(** The index found does not depend on where the count starts. *)
Lemma rfind_from_shift (s : string) (i : Z) :
  (0 <= i)%Z →
  PyStr.contains c s = true →
  PyStr.rfind_from c s i = (PyStr.rfind_from c s 0 + i)%Z.
Proof.
  revert i. induction s as [|a s IH]; intros i Hi; cbn; [done|].
  change (0 + 1)%Z with 1%Z.
  pose proof (rfind_from_contains s (i + 1) ltac:(lia)) as H1.
  pose proof (rfind_from_contains s 1 ltac:(lia)) as H2.
  destruct (PyStr.contains c s) eqn:Hin.
  - intros _.
    destruct (Z.leb_spec 0 (PyStr.rfind_from c s (i + 1))); [|lia].
    destruct (Z.leb_spec 0 (PyStr.rfind_from c s 1)); [|lia].
    rewrite (IH (i + 1)%Z), (IH 1%Z) by (done || lia). lia.
  - rewrite orb_false_r. intros ->. rewrite H1, H2. cbn. lia.
Qed.

Lemma split_no_sep (s : string) :
  PyStr.contains c s = false → PyStr.split c s = [s].
Proof.
  induction s as [|a s IH]; cbn; [done|].
  intros [Ha Hs]%orb_false_elim. rewrite Ha, (IH Hs). done.
Qed.

Lemma split_sep (s : string) :
  PyStr.contains c s = true →
  ∃ seg seg' segs, PyStr.split c s = seg :: seg' :: segs.
Proof.
  induction s as [|a s IH]; cbn; [done|].
  destruct (Ascii.eqb a c); cbn.
  - intros _. destruct (PyStr.contains c s) eqn:Hin.
    + destruct (IH eq_refl) as (seg & seg' & segs & ->). eauto.
    + rewrite (split_no_sep s Hin). eauto.
  - intros (seg & seg' & segs & ->)%IH. eauto.
Qed.

(** [p[p.rfind(c) + 1:]] is the last of the segments of [p]. *)
Lemma slice_after_rfind (s : string) :
  PyStr.slice_from (PyStr.rfind c s + 1) s
    = List.last (PyStr.split c s) EmptyString.
Proof.
  unfold PyStr.slice_from, PyStr.rfind.
  induction s as [|a s IH]; [done|].
  cbn [PyStr.rfind_from PyStr.split]. change (0 + 1)%Z with 1%Z.
  destruct (PyStr.contains c s) eqn:Hin.
  - pose proof (rfind_from_contains s 0 ltac:(lia)) as H0.
    rewrite Hin in H0.
    rewrite (rfind_from_shift s 1) by (done || lia).
    destruct (Z.leb_spec 0 (PyStr.rfind_from c s 0 + 1)); [|lia].
    replace (Z.to_nat (PyStr.rfind_from c s 0 + 1 + 1))
      with (S (Z.to_nat (PyStr.rfind_from c s 0 + 1))) by lia.
    cbn [PyStr.drop]. rewrite IH.
    destruct (split_sep s Hin) as (seg & seg' & segs & ->).
    by destruct (Ascii.eqb a c).
  - pose proof (rfind_from_contains s 1 ltac:(lia)) as H1.
    rewrite Hin in H1. rewrite H1, (split_no_sep s Hin). cbn.
    by destruct (Ascii.eqb a c).
Qed.

Lemma split_segments_no_sep (s : string) :
  Forall (λ seg, PyStr.contains c seg = false) (PyStr.split c s).
Proof.
  induction s as [|a s IH]; cbn; [by constructor|].
  destruct (Ascii.eqb a c) eqn:Ha; [by constructor|].
  destruct (PyStr.split c s) as [|seg segs]; [by repeat constructor; cbn; rewrite Ha|].
  inversion IH; subst. constructor; [|done]. cbn. by rewrite Ha.
Qed.

(** A character that is not in the string is in none of its segments. *)
Lemma split_segments_without (c' : ascii) (s : string) :
  PyStr.contains c' s = false →
  Forall (λ seg, PyStr.contains c' seg = false) (PyStr.split c s).
Proof.
  induction s as [|a s IH]; cbn; [by constructor|].
  intros [Ha Hs]%orb_false_elim. specialize (IH Hs).
  destruct (Ascii.eqb a c); [by constructor|].
  destruct (PyStr.split c s) as [|seg segs];
    [by repeat constructor; cbn; rewrite Ha|].
  inversion IH; subst. constructor; [|done]. cbn. by rewrite Ha.
Qed.

(** The last segment is the whole string, or what follows its last
    separator. *)
Lemma last_segment_suffix (s : string) :
  let seg := List.last (PyStr.split c s) EmptyString in
  s = seg ∨ ∃ prefix, s = prefix +:+ String c seg.
Proof.
  induction s as [|a s IH]; cbn zeta in *; [by left|].
  cbn [PyStr.split].
  destruct (PyStr.contains c s) eqn:Hin.
  - destruct (split_sep s Hin) as (seg & seg' & segs & Hsplit).
    assert (Hlast : List.last
                      (if Ascii.eqb a c
                       then EmptyString :: PyStr.split c s
                       else match PyStr.split c s with
                            | sg :: sgs => String a sg :: sgs
                            | [] => [String a EmptyString]
                            end) EmptyString
                    = List.last (PyStr.split c s) EmptyString).
    { rewrite Hsplit. by destruct (Ascii.eqb a c). }
    rewrite Hlast. right. destruct IH as [IH|[prefix IH]].
    + pose proof (split_segments_no_sep s) as Hsegs.
      apply (last_Forall _ _ EmptyString) in Hsegs; [|done].
      rewrite <- IH in Hsegs. congruence.
    + exists (String a prefix). rewrite IH at 1. reflexivity.
  - rewrite (split_no_sep s Hin).
    destruct (Ascii.eqb_spec a c) as [->|]; cbn.
    + right. by exists EmptyString.
    + by left.
Qed.

End PathFacts.

Lemma basename_last_segment (p : string) :
  basename p = List.last (PyStr.split slash p) EmptyString.
Proof. apply slice_after_rfind. Qed.

Lemma suggested_filename_last_segment (file_path : string) :
  suggested_filename file_path = last_path_segment file_path.
Proof. apply basename_last_segment. Qed.

Lemma replace_removes (old new : ascii) (s : string) :
  old ≠ new → PyStr.contains old (PyStr.replace old new s) = false.
Proof.
  intros Hne. induction s as [|a s IH]; cbn; [done|].
  rewrite IH, orb_false_r.
  destruct (Ascii.eqb_spec a old) as [->|Ha].
  - by apply Ascii.eqb_neq.
  - by apply Ascii.eqb_neq.
Qed.

(** The file name holds no backslash. *)
Lemma suggested_filename_no_backslash (file_path : string) :
  PyStr.contains backslash (suggested_filename file_path) = false.
Proof.
  rewrite suggested_filename_last_segment. unfold last_path_segment.
  apply (last_Forall (λ seg, PyStr.contains backslash seg = false)); [done|].
  apply split_segments_without, replace_removes. done.
Qed.

(** The file name is the normalized path, or what follows its last
    slash. *)
Lemma suggested_filename_suffix (file_path : string) :
  let normalized := PyStr.replace backslash slash file_path in
  normalized = suggested_filename file_path ∨
  ∃ prefix,
    normalized = prefix +:+ String slash (suggested_filename file_path).
Proof.
  cbn zeta. rewrite suggested_filename_last_segment.
  apply last_segment_suffix.
Qed.

(** The file name holds no forward slash. *)
Lemma suggested_filename_no_slash (file_path : string) :
  PyStr.contains slash (suggested_filename file_path) = false.
Proof.
  rewrite suggested_filename_last_segment. unfold last_path_segment.
  apply (last_Forall (λ seg, PyStr.contains slash seg = false)); [done|].
  apply split_segments_no_sep.
Qed.

Section RouteFacts.

Context {db : Type}.
Variable db_get_all_images : db → option bool → exn + list record.
Variable db_toggle_image_favourite_status :
  db → string → (exn + bool) * db.
Variable image_util_parse_metadata : pyval → exn + pyval.
Variable validate_str : pyval → option string.
Variable validate_bool : pyval → option bool.
Variable validate_tags : pyval → option (option (list string)).
Variable validate_metadata : pyval → option MetadataModel.
Variable os_path_exists : pyval → exn + bool.
Variable str_val : pyval → string.
Variable str_exn : exn → string.

Local Abbreviation convert :=
  (image_to_ImageData image_util_parse_metadata validate_str validate_bool
     validate_tags validate_metadata).
Local Abbreviation list_images :=
  (get_all_images db_get_all_images image_util_parse_metadata validate_str
     validate_bool validate_tags validate_metadata str_exn).
Local Abbreviation toggle :=
  (toggle_favourite db_get_all_images db_toggle_image_favourite_status
     str_exn).
Local Abbreviation download :=
  (download_image db_get_all_images os_path_exists str_val str_exn).
Local Abbreviation list_failure := (list_error str_exn).
Local Abbreviation failure := (internal_error str_exn).
Local Abbreviation bad_metadata :=
  (metadata_fails image_util_parse_metadata validate_metadata).

(** *** The handlers as case analyses on what the collaborators return *)

Lemma list_images_run tagged (s : state db) :
  list_images tagged s =
    match db_get_all_images (st_db s) tagged with
    | inl e => (inl (list_failure e), s)
    | inr images =>
        match map_exn convert images with
        | inl e => (inl (list_failure e), s)
        | inr ds =>
            (inr (mkGetAllImagesResponse
                    true
                    ("Successfully retrieved " ++ pretty (length ds)
                       ++ " images")
                    ds), s)
        end
    end.
Proof.
  unfold get_all_images, list_error. run.
  destruct (db_get_all_images (st_db s) tagged) as [e|images]; [done|].
  destruct (map_exn _ images) as [e|ds]; done.
Qed.

Lemma toggle_run (req : ToggleFavouriteRequest) (s : state db) :
  let fault e d :=
    (inl (failure e),
     mkState d (st_log s ++ [(ERROR, "error in /toggle-favourite route: "
                                       ++ str_exn e)])) in
  toggle req s =
    match db_toggle_image_favourite_status (st_db s) (image_id req) with
    | (inl e, d) => fault e d
    | (inr false, d) =>
        fault (HTTPException
                 404 (DetailStr "Image not found or failed to toggle")) d
    | (inr true, d) =>
        match db_get_all_images d None with
        | inl e => fault e d
        | inr images =>
            match next_by_id images (image_id req) with
            | inl e => fault e d
            | inr None =>
                fault (AttributeError
                         "'NoneType' object has no attribute 'get'") d
            | inr (Some img) =>
                (inr (mkToggleFavouriteResult
                        true (image_id req)
                        (get img "isFavourite" (PBool false))),
                 mkState d (st_log s))
            end
        end
    end.
Proof.
  unfold toggle_favourite, internal_error. run.
  destruct (db_toggle_image_favourite_status _ _) as [[e|[]] d]; cbn; try done.
  destruct (db_get_all_images d None) as [e|images]; cbn; [done|].
  destruct (next_by_id images _) as [e|[img|]]; done.
Qed.

Lemma download_run (image_id : string) (s : state db) :
  let say (log : list log_record) (lvl : level) (msg : string) :=
    (log ++ [(lvl, msg)])%list in
  let fault e log :=
    if is_HTTPException e
    then (inl e, mkState (st_db s) log)
    else (inl (failure e),
          mkState (st_db s)
                  (say log ERROR ("Error downloading image " ++ image_id
                                    ++ ": " ++ str_exn e))) in
  let log0 :=
    say (st_log s) INFO
        ("Attempting to download image with ID: " ++ image_id) in
  download image_id s =
    match db_get_all_images (st_db s) None with
    | inl e => fault e log0
    | inr images =>
        match next_by_id images image_id with
        | inl e => fault e log0
        | inr image =>
            if py_not image
            then (inl (HTTPException 404 (DetailStr "Image not found")),
                  mkState (st_db s)
                          (say log0 ERROR
                               ("Image ID " ++ image_id
                                  ++ " not found in database")))
            else
              match get_path image with
              | inl e => fault e log0
              | inr file_path =>
                  let log1 :=
                    say log0 INFO
                        ("Found image. Path: " ++ str_val file_path) in
                  match os_path_exists file_path with
                  | inl e => fault e log1
                  | inr false =>
                      (inl (HTTPException
                              404 (DetailStr "File not found on disk")),
                       mkState (st_db s)
                               (say log1 ERROR
                                    ("File does not exist on disk at path: "
                                       ++ str_val file_path)))
                  | inr true =>
                      match replace_backslashes file_path with
                      | inl e => fault e log1
                      | inr normalized =>
                          (inr (mkFileResponse
                                  file_path (basename normalized)
                                  "application/octet-stream"),
                           mkState (st_db s) log1)
                      end
                  end
              end
        end
    end.
Proof.
  intros say fault log0. subst say fault log0.
  unfold download_image, internal_error. run.
  destruct (db_get_all_images (st_db s) None) as [e|images]; cbn;
    [by destruct e|].
  destruct (next_by_id images image_id) as [e|image]; cbn;
    [by destruct e|].
  destruct (py_not image); cbn; [done|].
  destruct (get_path image) as [e|file_path]; cbn; [by destruct e|].
  destruct (os_path_exists file_path) as [e|[]]; cbn;
    [by destruct e| |done].
  destruct (replace_backslashes file_path) as [e|normalized];
    [by destruct e|done].
Qed.

(** *** Lists built by the comprehension *)

Lemma map_exn_inr {A B} (f : A → exn + B) (l : list A) (ys : list B) :
  map_exn f l = inr ys ↔ Forall2 (λ x y, f x = inr y) l ys.
Proof.
  revert ys. induction l as [|x l IH]; intros ys; cbn.
  - split.
    + intros [= <-]. constructor.
    + intros H. inversion H. reflexivity.
  - unfold mbind, exn_bind. split.
    + destruct (f x) as [e|y] eqn:Hx; [done|].
      destruct (map_exn f l) as [e|ys'] eqn:Hl; [done|].
      intros [= <-]. constructor; [done|]. by apply IH.
    + intros H. inversion H as [|? y ? ys' Hx Hl]; subst.
      rewrite Hx. apply IH in Hl. by rewrite Hl.
Qed.

Lemma map_exn_inl {A B} (f : A → exn + B) (l : list A) :
  Exists (λ x, ∃ e, f x = inl e) l → ∃ e, map_exn f l = inl e.
Proof.
  induction 1 as [x l [e Hx]|x l _ [e IH]]; cbn; unfold mbind, exn_bind.
  - rewrite Hx. eauto.
  - destruct (f x) as [e'|y]; [eauto|]. rewrite IH. eauto.
Qed.

Lemma map_exn_length {A B} (f : A → exn + B) (l : list A) (ys : list B) :
  map_exn f l = inr ys → length ys = length l.
Proof.
  intros H%map_exn_inr. symmetry. eapply Forall2_length, H.
Qed.

(** *** One record *)

Lemma ImageData_init_inr i p f t m tg fv ts d :
  ImageData_init validate_str validate_bool validate_tags validate_metadata
                 i p f t m tg fv ts = inr d →
  validate_metadata m = Some (metadata d) ∧
  validate_bool fv = Some (isFavourite d) ∧
  validate_str i = Some (id d) ∧
  validate_tags ts = Some (tags d) ∧
  validate_bool tg = Some (isTagged d).
Proof.
  unfold ImageData_init.
  destruct (validate_str i), (validate_str p), (validate_str f),
    (validate_str t), (validate_metadata m), (validate_bool tg),
    (validate_bool fv), (validate_tags ts); intros [= <-]; done.
Qed.

(** What a record that converts must look like. *)
Lemma convert_inr (image : record) d :
  convert image = inr d →
  ∃ i raw parsed tg ts,
    image !! "id" = Some i ∧ validate_str i = Some (id d) ∧
    image !! "metadata" = Some raw ∧
    image_util_parse_metadata raw = inr parsed ∧
    validate_metadata parsed = Some (metadata d) ∧
    image !! "isTagged" = Some tg ∧ validate_bool tg = Some (isTagged d) ∧
    image !! "tags" = Some ts ∧ validate_tags ts = Some (tags d) ∧
    validate_bool (get image "isFavourite" (PBool false))
      = Some (isFavourite d).
Proof.
  unfold image_to_ImageData, getitem, mbind, exn_bind.
  destruct (image !! "id") as [i|]; [|done].
  destruct (image !! "path") as [p|]; [|done].
  destruct (image !! "folder_id") as [f|]; [|done].
  destruct (image !! "thumbnailPath") as [t|]; [|done].
  destruct (image !! "metadata") as [raw|]; [|done].
  destruct (image_util_parse_metadata raw) as [e|parsed] eqn:Hparse;
    [done|].
  destruct (image !! "isTagged") as [tg|]; [|done].
  destruct (image !! "tags") as [ts|]; [|done].
  intros (? & ? & ? & ? & ?)%ImageData_init_inr.
  exists i, raw, parsed, tg, ts. repeat split; done.
Qed.

Lemma convert_bad_metadata (image : record) :
  bad_metadata image = true → ∃ e, convert image = inl e.
Proof.
  unfold metadata_fails. intros Hbad.
  destruct (convert image) as [e|d] eqn:Hc; [eauto|].
  apply convert_inr in Hc
    as (i & raw & parsed & tg & ts & _ & _ & Hraw & Hparse & Hvalid & _).
  rewrite Hraw, Hparse, Hvalid in Hbad. done.
Qed.

Lemma convert_default_isFavourite (image : record) d :
  validate_bool (PBool false) = Some false →
  convert image = inr d →
  image !! "isFavourite" = None →
  isFavourite d = false.
Proof.
  intros Hfalse Hc Hnone.
  apply convert_inr in Hc as (? & ? & ? & ? & ? & Hc).
  destruct Hc as (_ & _ & _ & _ & _ & _ & _ & _ & _ & Hfav).
  unfold get in Hfav. rewrite Hnone in Hfav. cbn in Hfav. congruence.
Qed.

(** *** Looking an image up by id *)

Lemma next_by_id_Some (images : list record) image_id img :
  next_by_id images image_id = inr (Some img) →
  ∃ v, img !! "id" = Some v ∧ eq_str v image_id = true.
Proof.
  induction images as [|img' rest IH]; cbn; [done|].
  unfold getitem, mbind, exn_bind.
  destruct (img' !! "id") as [v|] eqn:Hid; [|done].
  destruct (eq_str v image_id) eqn:Heq; [|done].
  intros [= <-]. eauto.
Qed.

Lemma py_not_found (images : list record) image_id img :
  next_by_id images image_id = inr (Some img) → py_not (Some img) = false.
Proof.
  intros (v & Hv & _)%next_by_id_Some. cbn.
  apply Nat.eqb_neq. by eapply map_size_ne_0_lookup_2.
Qed.

(** *** Toggle *)

Lemma toggle_inr (req : ToggleFavouriteRequest) (s : state db) res s' :
  toggle req s = (inr res, s') ↔
  ∃ d images img,
    db_toggle_image_favourite_status (st_db s) (image_id req)
      = (inr true, d) ∧
    db_get_all_images d None = inr images ∧
    next_by_id images (image_id req) = inr (Some img) ∧
    res = mkToggleFavouriteResult true (image_id req)
                                  (get img "isFavourite" (PBool false)) ∧
    s' = mkState d (st_log s).
Proof.
  rewrite toggle_run. cbv zeta. split.
  - destruct (db_toggle_image_favourite_status _ _) as [[e|[]] d];
      [done| |done].
    destruct (db_get_all_images d None) as [e|images] eqn:Hall; [done|].
    destruct (next_by_id images _) as [e|[img|]] eqn:Hnext; [done| |done].
    intros [= <- <-]. by exists d, images, img.
  - intros (d & images & img & -> & -> & -> & -> & ->). done.
Qed.

Lemma toggle_inl (req : ToggleFavouriteRequest) (s : state db) e s' :
  toggle req s = (inl e, s') → ∃ cause, e = failure cause.
Proof.
  rewrite toggle_run. cbv zeta.
  destruct (db_toggle_image_favourite_status _ _) as [[e'|[]] d].
  - intros [= <- _]. eauto.
  - destruct (db_get_all_images d None) as [e'|images].
    { intros [= <- _]. eauto. }
    destruct (next_by_id images _) as [e'|[img|]]; [|done|].
    all: intros [= <- _]; eauto.
  - intros [= <- _]. eauto.
Qed.

(** C1.  When the repository reports that the toggle did not apply
    ([db_toggle_image_favourite_status] returns [False]), the handler
    raises [HTTPException(404)] inside its [try] block, the catch-all
    [except Exception] clause catches it, and the client receives status
    500 whose detail quotes the 404: the operation does not fail with
    NotFoundError there. *)
Theorem toggle_not_applied (req : ToggleFavouriteRequest) (s : state db) d :
  db_toggle_image_favourite_status (st_db s) (image_id req)
    = (inr false, d) →
  let e404 :=
    HTTPException 404 (DetailStr "Image not found or failed to toggle") in
  toggle req s =
    (inl (HTTPException
            500 (DetailStr ("Internal server error: " ++ str_exn e404))),
     mkState d (st_log s ++
                  [(ERROR, "error in /toggle-favourite route: "
                             ++ str_exn e404)])).
Proof.
  intros Hdb e404. rewrite toggle_run, Hdb. reflexivity.
Qed.

(** C6.  When the toggle applied but the re-read list has no record with
    the toggled id, [image] is [None], [image.get] faults with an
    [AttributeError] and the catch-all clause turns it into status 500
    with the generic detail: the text of the fault after
    ["Internal server error: "], nothing that names a post-toggle
    inconsistency. *)
Theorem toggle_refetch_miss
  (req : ToggleFavouriteRequest) (s : state db) d images :
  db_toggle_image_favourite_status (st_db s) (image_id req)
    = (inr true, d) →
  db_get_all_images d None = inr images →
  next_by_id images (image_id req) = inr None →
  let fault :=
    AttributeError "'NoneType' object has no attribute 'get'" in
  toggle req s =
    (inl (HTTPException
            500 (DetailStr ("Internal server error: " ++ str_exn fault))),
     mkState d (st_log s ++
                  [(ERROR, "error in /toggle-favourite route: "
                             ++ str_exn fault)])).
Proof.
  intros Hdb Hall Hnext fault. rewrite toggle_run, Hdb, Hall, Hnext.
  reflexivity.
Qed.

(** The response to a re-fetch miss is the one of any other fault with the
    same text: here, a repository whose toggle call raises it. *)
Lemma refetch_miss_not_distinct
  (req : ToggleFavouriteRequest) (s s0 : state db) d images e :
  db_toggle_image_favourite_status (st_db s) (image_id req)
    = (inr true, d) →
  db_get_all_images d None = inr images →
  next_by_id images (image_id req) = inr None →
  db_toggle_image_favourite_status (st_db s0) (image_id req) = (inl e, d) →
  str_exn e
    = str_exn (AttributeError "'NoneType' object has no attribute 'get'") →
  st_log s0 = st_log s →
  toggle req s0 = toggle req s.
Proof.
  intros Hdb Hall Hnext Hdb0 Hstr Hlog.
  rewrite !toggle_run, Hdb, Hall, Hnext, Hdb0. cbv zeta.
  unfold internal_error. by rewrite Hstr, Hlog.
Qed.

(** *** List *)

Lemma list_images_inr tagged (s : state db) resp s' :
  list_images tagged s = (inr resp, s') ↔
  ∃ images,
    db_get_all_images (st_db s) tagged = inr images ∧
    map_exn convert images = inr (data resp) ∧
    success resp = true ∧
    message resp = "Successfully retrieved "
                     ++ pretty (length (data resp)) ++ " images" ∧
    s' = s.
Proof.
  rewrite list_images_run. split.
  - destruct (db_get_all_images _ _) as [e|images]; [done|].
    destruct (map_exn _ images) as [e|ds] eqn:Hds; [done|].
    intros [= <- <-]. exists images. done.
  - intros (images & -> & Hds & Hsucc & Hmsg & ->). rewrite Hds.
    destruct resp as [su msg ds]; cbn in *. by subst.
Qed.

(** C2.  A record without the [isFavourite] key is surfaced with
    [isFavourite = false]: in every element of a list response (the
    field of [ImageData] is a [bool], filled from
    [image.get("isFavourite", False)]), and in the toggle response, read
    from the re-fetched record in the same way.  pydantic is assumed to
    validate [False] as [false] for a [bool] field. *)
Theorem isFavourite_defaults_to_false
  tagged (req : ToggleFavouriteRequest) (s1 s2 : state db) :
  validate_bool (PBool false) = Some false →
  (∀ resp s1',
     list_images tagged s1 = (inr resp, s1') →
     ∃ images,
       db_get_all_images (st_db s1) tagged = inr images ∧
       Forall2 (λ (image : record) d,
                  image !! "isFavourite" = None → isFavourite d = false)
               images (data resp)) ∧
  (∀ res s2',
     toggle req s2 = (inr res, s2') →
     ∃ images (image : record),
       db_get_all_images (st_db s2') None = inr images ∧
       next_by_id images (image_id req) = inr (Some image) ∧
       (image !! "isFavourite" = None → tf_isFavourite res = PBool false)).
Proof.
  intros Hfalse. split.
  - intros resp s1' (images & Hall & Hds & _)%list_images_inr.
    exists images. split; [done|].
    apply map_exn_inr in Hds.
    eapply Forall2_impl; [exact Hds|].
    intros image d Hc Hnone.
    exact (convert_default_isFavourite image d Hfalse Hc Hnone).
  - intros res s2' (d & images & img & _ & Hall & Hnext & -> & ->)%toggle_inr.
    exists images, img. repeat split; [done..|].
    intros Hnone. cbn. unfold get. by rewrite Hnone.
Qed.

(** C3.  Listing is all or nothing.  Given the records the repository
    returned: if the metadata of at least one of them fails
    normalization the call fails with status 500 and the structured
    error body, and returns no data; if every record converts, the
    response carries all of them, in order; and a successful response
    never holds fewer elements than the repository returned. *)
Theorem list_all_or_nothing tagged (s : state db) images :
  db_get_all_images (st_db s) tagged = inr images →
  (Exists (λ image, bad_metadata image = true) images →
   ∃ msg,
     list_images tagged s =
       (inl (HTTPException
               500
               (DetailModel
                  (mkErrorResponse false "Internal server error" msg))),
        s)) ∧
  (∀ ds,
     Forall2 (λ image d, convert image = inr d) images ds →
     ∃ msg,
       list_images tagged s = (inr (mkGetAllImagesResponse true msg ds), s)) ∧
  (∀ resp s',
     list_images tagged s = (inr resp, s') →
     Forall2 (λ image d, convert image = inr d) images (data resp) ∧
     length (data resp) = length images).
Proof.
  intros Hall. split; [|split].
  - intros Hbad. rewrite list_images_run, Hall.
    destruct (map_exn_inl convert images) as [e He].
    { eapply Exists_impl; [exact Hbad|]. apply convert_bad_metadata. }
    rewrite He. unfold list_error. eauto.
  - intros ds Hds%map_exn_inr. rewrite list_images_run, Hall, Hds. eauto.
  - intros resp s' (images' & Hall' & Hds & _)%list_images_inr.
    assert (images' = images) as -> by congruence.
    split; [by apply map_exn_inr|by eapply map_exn_length].
Qed.

(** *** Download *)

Lemma download_found (image_id : string) (s : state db) images img p :
  db_get_all_images (st_db s) None = inr images →
  next_by_id images image_id = inr (Some img) →
  img !! "path" = Some (PStr p) →
  os_path_exists (PStr p) = inr true →
  download image_id s =
    (inr (mkFileResponse (PStr p) (suggested_filename p)
                         "application/octet-stream"),
     mkState (st_db s)
             (st_log s ++
                [(INFO, "Attempting to download image with ID: " ++ image_id);
                 (INFO, "Found image. Path: " ++ str_val (PStr p))])).
Proof.
  intros Hall Hnext Hpath Hexists.
  rewrite download_run. cbv zeta.
  rewrite Hall, Hnext, (py_not_found _ _ _ Hnext). cbn [get_path].
  unfold getitem. rewrite Hpath, Hexists. cbn [replace_backslashes].
  by rewrite <- app_assoc.
Qed.

Lemma download_inr (image_id : string) (s : state db) resp s' :
  download image_id s = (inr resp, s') →
  ∃ images img p,
    db_get_all_images (st_db s) None = inr images ∧
    next_by_id images image_id = inr (Some img) ∧
    img !! "path" = Some (PStr p) ∧
    os_path_exists (PStr p) = inr true ∧
    resp = mkFileResponse (PStr p) (suggested_filename p)
                          "application/octet-stream".
Proof.
  rewrite download_run. cbv zeta.
  destruct (db_get_all_images _ _) as [e|images] eqn:Hall;
    [by destruct (is_HTTPException e)|].
  destruct (next_by_id images _) as [e|image] eqn:Hnext;
    [by destruct (is_HTTPException e)|].
  destruct (py_not image) eqn:Hnot; [done|].
  destruct image as [img|]; [|done]. cbn [get_path]. unfold getitem.
  destruct (img !! "path") as [file_path|] eqn:Hpath; [|done].
  destruct (os_path_exists file_path) as [e|[]] eqn:Hexists;
    [by destruct (is_HTTPException e)| |done].
  destruct file_path as [| | | |p| |]; try done.
  cbn [replace_backslashes]. intros [= <- _].
  by exists images, img, p.
Qed.

(** C5.  For every stored path string, a successful download suggests
    as file name the last segment of the path once backslashes are read
    as forward slashes: the part after the last separator (the whole
    path when there is none), which holds neither kind of separator;
    and the two paths of the spec both give ["photo.jpg"]. *)
Theorem download_filename_last_segment
  (image_id : string) (s : state db) images (img : record) (p : string) :
  db_get_all_images (st_db s) None = inr images →
  next_by_id images image_id = inr (Some img) →
  img !! "path" = Some (PStr p) →
  os_path_exists (PStr p) = inr true →
  (∃ resp s',
     download image_id s = (inr resp, s') ∧
     fr_filename resp = suggested_filename p) ∧
  suggested_filename p = last_path_segment p ∧
  (PyStr.replace backslash slash p = suggested_filename p ∨
   ∃ prefix,
     PyStr.replace backslash slash p
       = prefix +:+ String slash (suggested_filename p)) ∧
  PyStr.contains slash (suggested_filename p) = false ∧
  PyStr.contains backslash (suggested_filename p) = false ∧
  suggested_filename "C:\images\photo.jpg" = "photo.jpg" ∧
  suggested_filename "/var/images/photo.jpg" = "photo.jpg".
Proof.
  intros Hall Hnext Hpath Hexists.
  split; [|split; [|split; [|split; [|split; [|split]]]]].
  - rewrite (download_found _ _ _ _ _ Hall Hnext Hpath Hexists). eauto.
  - apply suggested_filename_last_segment.
  - apply suggested_filename_suffix.
  - apply suggested_filename_no_slash.
  - apply suggested_filename_no_backslash.
  - reflexivity.
  - reflexivity.
Qed.

(** C10.  A successful download always declares the media type
    ["application/octet-stream"]; the [item_type] of the stored metadata
    is not read. *)
Theorem download_media_type (image_id : string) (s : state db) resp s' :
  download image_id s = (inr resp, s') →
  fr_media_type resp = "application/octet-stream".
Proof.
  intros (images & img & p & _ & _ & _ & _ & ->)%download_inr. done.
Qed.

Lemma next_by_id_no_http (images : list record) image_id e :
  next_by_id images image_id = inl e → is_HTTPException e = false.
Proof.
  induction images as [|img rest IH]; cbn; [done|].
  unfold getitem, mbind, exn_bind.
  destruct (img !! "id") as [v|]; [|by intros [= <-]].
  by destruct (eq_str v image_id).
Qed.

Lemma replace_backslashes_no_http v e :
  replace_backslashes v = inl e → is_HTTPException e = false.
Proof. destruct v; cbn; try done; by intros [= <-]. Qed.

Lemma get_path_no_http image e :
  get_path image = inl e → is_HTTPException e = false.
Proof.
  destruct image as [img|]; cbn; [|by intros [= <-]].
  unfold getitem. destruct (img !! "path"); [done|by intros [= <-]].
Qed.

Lemma failure_not_404 e d : failure e ≠ HTTPException 404 d.
Proof. done. Qed.

Lemma fault_not_404 (image_id : string) (s : state db) log e d :
  is_HTTPException e = false →
  fst (if is_HTTPException e
       then (inl e, mkState (st_db s) log)
       else (inl (failure e) : exn + FileResponse,
             mkState (st_db s)
                     (log ++ [(ERROR, "Error downloading image "
                                        ++ image_id ++ ": " ++ str_exn e)])))
    ≠ inl (HTTPException 404 d).
Proof. intros ->. done. Qed.

(** C9.  Provided the repository and [os.path.exists] raise no
    [HTTPException] of their own, a download fails with status 404
    exactly when the list holds no record with the id, or the record
    found has a path for which [os.path.exists] is false.  Both causes
    reach the client as 404 (the [except HTTPException] clause re-raises
    them unchanged, so neither becomes a 500), and each writes its own
    error line to the log. *)
Theorem download_not_found (image_id : string) (s : state db) :
  (∀ d, no_http (db_get_all_images d)) →
  no_http os_path_exists →
  let not_in_db :=
    ∃ images,
      db_get_all_images (st_db s) None = inr images ∧
      next_by_id images image_id = inr None in
  let file_missing file_path :=
    ∃ images (img : record),
      db_get_all_images (st_db s) None = inr images ∧
      next_by_id images image_id = inr (Some img) ∧
      img !! "path" = Some file_path ∧
      os_path_exists file_path = inr false in
  let log0 :=
    (st_log s ++
       [(INFO, ("Attempting to download image with ID: " ++ image_id)
                 %string)])%list in
  ((∃ d, fst (download image_id s) = inl (HTTPException 404 d)) ↔
   not_in_db ∨ ∃ file_path, file_missing file_path) ∧
  (not_in_db →
   download image_id s =
     (inl (HTTPException 404 (DetailStr "Image not found")),
      mkState (st_db s)
              (log0 ++ [(ERROR, "Image ID " ++ image_id
                                  ++ " not found in database")]))) ∧
  (∀ file_path,
     file_missing file_path →
     download image_id s =
       (inl (HTTPException 404 (DetailStr "File not found on disk")),
        mkState (st_db s)
                (log0 ++
                   [(INFO, "Found image. Path: " ++ str_val file_path);
                    (ERROR, "File does not exist on disk at path: "
                              ++ str_val file_path)]))) ∧
  (∀ file_path,
     "Image ID " ++ image_id ++ " not found in database"
       ≠ "File does not exist on disk at path: " ++ str_val file_path).
Proof.
  intros Hdb Hfs not_in_db file_missing log0.
  assert (Hmiss : not_in_db →
    download image_id s =
      (inl (HTTPException 404 (DetailStr "Image not found")),
       mkState (st_db s)
               (log0 ++ [(ERROR, "Image ID " ++ image_id
                                   ++ " not found in database")]))).
  { intros (images & Hall & Hnext). rewrite download_run. cbv zeta.
    by rewrite Hall, Hnext. }
  assert (Hfile : ∀ file_path, file_missing file_path →
    download image_id s =
      (inl (HTTPException 404 (DetailStr "File not found on disk")),
       mkState (st_db s)
               (log0 ++
                  [(INFO, "Found image. Path: " ++ str_val file_path);
                   (ERROR, "File does not exist on disk at path: "
                             ++ str_val file_path)]))).
  { intros file_path (images & img & Hall & Hnext & Hpath & Hexists).
    rewrite download_run. cbv zeta.
    rewrite Hall, Hnext, (py_not_found _ _ _ Hnext). cbn [get_path].
    unfold getitem. rewrite Hpath, Hexists. subst log0.
    by rewrite <- !app_assoc. }
  split; [|split; [exact Hmiss|split; [exact Hfile|]]].
  - split.
    + intros [d H404]. revert H404. rewrite download_run. cbv zeta.
      destruct (db_get_all_images _ _) as [e|images] eqn:Hall.
      { intros H. by apply fault_not_404 in H; [|eapply Hdb]. }
      destruct (next_by_id images _) as [e|image] eqn:Hnext.
      { intros H.
        by apply fault_not_404 in H; [|eapply next_by_id_no_http]. }
      destruct (py_not image) eqn:Hnot.
      { intros _. left. exists images. split; [done|].
        destruct image as [img|]; [|done].
        by rewrite (py_not_found _ _ _ Hnext) in Hnot. }
      destruct (get_path image) as [e|file_path] eqn:Hpath.
      { intros H. by apply fault_not_404 in H; [|eapply get_path_no_http]. }
      destruct (os_path_exists file_path) as [e|[]] eqn:Hexists.
      { intros H. by apply fault_not_404 in H; [|eapply Hfs]. }
      { destruct (replace_backslashes file_path) as [e|n] eqn:Hrep; [|done].
        intros H.
        by apply fault_not_404 in H;
          [|eapply replace_backslashes_no_http]. }
      intros _. right. exists file_path.
      destruct image as [img|]; [|done].
      exists images, img. repeat split; try done.
      cbn in Hpath. unfold getitem in Hpath.
      by destruct (img !! "path"); simplify_eq.
    + intros [H|[file_path H]].
      * rewrite (Hmiss H). eauto.
      * rewrite (Hfile _ H). eauto.
  - intros file_path H. simpl in H. discriminate H.
Qed.

(** C7, as the code has it.  Every failure of the three handlers reaches
    the client as an [HTTPException]; none has status 400.  A failure of
    the list handler has status 500 and carries the structured body
    [{success: false, error: "Internal server error", message}].  A
    failure of the toggle or the download handler has status 404 or 500
    and carries a plain string as its detail.  (The repository and
    [os.path.exists] are assumed to raise no [HTTPException] of their
    own.) *)
Theorem errors_by_endpoint
  tagged (req : ToggleFavouriteRequest) (image_id : string) (s : state db) :
  (∀ d, no_http (db_get_all_images d)) →
  no_http os_path_exists →
  (∀ e s',
     list_images tagged s = (inl e, s') →
     ∃ msg,
       e = HTTPException
             500
             (DetailModel
                (mkErrorResponse false "Internal server error" msg))) ∧
  (∀ e s',
     toggle req s = (inl e, s') →
     ∃ status_code msg,
       e = HTTPException status_code (DetailStr msg) ∧
       (status_code = 404 ∨ status_code = 500)%Z) ∧
  (∀ e s',
     download image_id s = (inl e, s') →
     ∃ status_code msg,
       e = HTTPException status_code (DetailStr msg) ∧
       (status_code = 404 ∨ status_code = 500)%Z).
Proof.
  intros Hdb Hfs. split; [|split].
  - intros e s'. rewrite list_images_run. unfold list_error.
    destruct (db_get_all_images _ _) as [e'|images].
    { intros [= <- _]. eauto. }
    destruct (map_exn _ images) as [e'|ds]; [|done].
    intros [= <- _]. eauto.
  - intros e s' [cause ->]%toggle_inl. unfold internal_error. eauto.
  - intros e s'. rewrite download_run. cbv zeta. unfold internal_error.
    assert (Hfault : ∀ e' log,
      is_HTTPException e' = false →
      (if is_HTTPException e'
       then (inl e', mkState (st_db s) log)
       else (inl (HTTPException
                    500 (DetailStr ("Internal server error: "
                                      ++ str_exn e'))),
             mkState (st_db s)
               (log ++ [(ERROR, "Error downloading image " ++ image_id
                                  ++ ": " ++ str_exn e')])))
        = (inl e : exn + FileResponse, s') →
      ∃ status_code msg,
        e = HTTPException status_code (DetailStr msg) ∧
        (status_code = 404 ∨ status_code = 500)%Z).
    { intros e' log ->. intros [= <- _]. eauto. }
    destruct (db_get_all_images _ _) as [e'|images] eqn:Hall.
    { apply Hfault. by eapply Hdb. }
    destruct (next_by_id images _) as [e'|image] eqn:Hnext.
    { apply Hfault. by eapply next_by_id_no_http. }
    destruct (py_not image); [intros [= <- _]; eauto|].
    destruct (get_path image) as [e'|file_path] eqn:Hpath.
    { apply Hfault. by eapply get_path_no_http. }
    destruct (os_path_exists file_path) as [e'|[]] eqn:Hexists.
    { apply Hfault. by eapply Hfs. }
    { destruct (replace_backslashes file_path) as [e'|n] eqn:Hrep; [|done].
      apply Hfault. by eapply replace_backslashes_no_http. }
    intros [= <- _]. eauto.
Qed.

End RouteFacts.

(** ** The routes over the repository of the spec *)

Section RepositoryFacts.

Import Repository.

Variable image_util_parse_metadata : pyval → exn + pyval.
Variable validate_str : pyval → option string.
Variable validate_bool : pyval → option bool.
Variable validate_tags : pyval → option (option (list string)).
Variable validate_metadata : pyval → option MetadataModel.
Variable str_exn : exn → string.

Local Abbreviation convert :=
  (image_to_ImageData image_util_parse_metadata validate_str validate_bool
     validate_tags validate_metadata).
Local Abbreviation list_images :=
  (get_all_images db_get_all_images image_util_parse_metadata validate_str
     validate_bool validate_tags validate_metadata str_exn).
Local Abbreviation toggle :=
  (toggle_favourite db_get_all_images db_toggle_image_favourite_status
     str_exn).

Lemma raw_of_row_id (r : row) : raw_of_row r !! "id" = Some (PStr (row_id r)).
Proof. unfold raw_of_row. by destruct (row_isFavourite r). Qed.

Lemma raw_of_row_isFavourite (r : row) :
  raw_of_row r !! "isFavourite" = PBool <$> row_isFavourite r.
Proof. unfold raw_of_row. by destruct (row_isFavourite r). Qed.

Lemma get_isFavourite_raw (r : row) :
  get (raw_of_row r) "isFavourite" (PBool false)
    = PBool (default false (row_isFavourite r)).
Proof.
  unfold get. rewrite raw_of_row_isFavourite.
  by destruct (row_isFavourite r).
Qed.

Lemma selected_tag_matches (tagged : option bool) (r : row) :
  tag_matches tagged r = selected tagged r.
Proof.
  unfold tag_matches, selected, row_isTagged.
  destruct tagged as [[]|]; [| |done]; by destruct (row_tags r) as [[|]|].
Qed.

Lemma filter_all (st : store) : List.filter (tag_matches None) st = st.
Proof. induction st as [|r st IH]; cbn; [done|]. by rewrite IH. Qed.

(** The generator of the handlers finds the first stored image with the
    id. *)
Lemma next_by_id_raw (st : store) (image_id : string) :
  next_by_id (raw_of_row <$> st) image_id
    = inr (raw_of_row <$> List.find (has_id image_id) st).
Proof.
  induction st as [|r st IH]; cbn; [done|].
  unfold getitem. rewrite raw_of_row_id. cbn. unfold has_id.
  by destruct (String.eqb (row_id r) image_id).
Qed.

Lemma find_existsb (st : store) (image_id : string) r :
  List.find (has_id image_id) st = Some r →
  existsb (has_id image_id) st = true.
Proof.
  induction st as [|r' st IH]; cbn; [done|].
  destruct (has_id image_id r'); [done|]. exact IH.
Qed.

Lemma find_flipped (st : store) (image_id : string) :
  List.find (has_id image_id)
            ((λ r, if has_id image_id r then flip_favourite r else r) <$> st)
    = flip_favourite <$> List.find (has_id image_id) st.
Proof.
  induction st as [|r st IH]; cbn; [done|].
  destruct (has_id image_id r) eqn:Hr.
  - unfold has_id in *. cbn. by rewrite Hr.
  - by rewrite Hr.
Qed.

(** One toggle of a stored image. *)
Lemma toggle_stored (st : store) log (image_id : string) r :
  List.find (has_id image_id) st = Some r →
  let st' := snd (db_toggle_image_favourite_status st image_id) in
  toggle (mkToggleFavouriteRequest image_id) (mkState st log) =
    (inr (mkToggleFavouriteResult
            true image_id
            (PBool (negb (default false (row_isFavourite r))))),
     mkState st' log) ∧
  List.find (has_id image_id) st' = Some (flip_favourite r).
Proof.
  intros Hfind st'. subst st'. unfold db_toggle_image_favourite_status.
  rewrite (find_existsb _ _ _ Hfind). cbn [snd]. split.
  - apply toggle_inr. eexists _, _, _.
    cbn -[db_toggle_image_favourite_status db_get_all_images next_by_id
          get].
    unfold db_toggle_image_favourite_status.
    rewrite (find_existsb _ _ _ Hfind).
    split; [reflexivity|]. split; [reflexivity|].
    rewrite filter_all, next_by_id_raw, find_flipped, Hfind.
    split; [reflexivity|]. by rewrite get_isFavourite_raw.
  - by rewrite find_flipped, Hfind.
Qed.

(** C8.  Over the repository of the spec, toggling an existing image
    twice in succession gives back the original [isFavourite] (an unset
    flag counting as [false]): the first response carries the negated
    value, the second the original one.  The value of each response is
    the one read in the image list re-fetched after the write. *)
Theorem toggle_twice (st : store) log (image_id : string) r :
  List.find (has_id image_id) st = Some r →
  let v := default false (row_isFavourite r) in
  let req := mkToggleFavouriteRequest image_id in
  let reread (st' : store) :=
    images ← db_get_all_images st' None;
    image ← next_by_id images image_id;
    get_isFavourite image in
  ∃ st1 st2,
    toggle req (mkState st log) =
      (inr (mkToggleFavouriteResult true image_id (PBool (negb v))),
       mkState st1 log) ∧
    toggle req (mkState st1 log) =
      (inr (mkToggleFavouriteResult true image_id (PBool v)),
       mkState st2 log) ∧
    reread st1 = inr (PBool (negb v)) ∧
    reread st2 = inr (PBool v).
Proof.
  intros Hfind v req reread.
  destruct (toggle_stored st log image_id r Hfind) as [Hrun1 Hfind1].
  destruct (toggle_stored _ log image_id _ Hfind1) as [Hrun2 Hfind2].
  subst v req reread. cbv beta.
  eexists _, _. split; [exact Hrun1|]. split.
  { rewrite Hrun2. cbn. by rewrite negb_involutive. }
  unfold db_get_all_images, mbind, exn_bind.
  rewrite !filter_all, !next_by_id_raw, Hfind1, Hfind2.
  cbn [fmap option_fmap option_map get_isFavourite].
  rewrite !get_isFavourite_raw. cbn. by rewrite negb_involutive.
Qed.

Lemma converted_rows (rs : list row) (ds : list ImageData) :
  map_exn convert (raw_of_row <$> rs) = inr ds ↔
  Forall2 (λ r d, convert (raw_of_row r) = inr d) rs ds.
Proof. rewrite map_exn_inr, Forall2_fmap_l. done. Qed.

Lemma converted_ids (rs : list row) (ds : list ImageData) :
  (∀ s, validate_str (PStr s) = Some s) →
  Forall2 (λ r d, convert (raw_of_row r) = inr d) rs ds →
  id <$> ds = row_id <$> rs.
Proof.
  intros Hstr. induction 1 as [|r d rs ds Hrd _ IH]; [done|].
  cbn. f_equal; [|exact IH].
  apply convert_inr in Hrd as (i & _ & _ & _ & _ & Hi & Hid & _).
  rewrite raw_of_row_id in Hi. injection Hi as <-.
  rewrite Hstr in Hid. by injection Hid.
Qed.

Lemma all_convert (rs : list row) :
  Forall (λ r, ∃ d, convert (raw_of_row r) = inr d) rs →
  ∃ ds, Forall2 (λ r d, convert (raw_of_row r) = inr d) rs ds.
Proof.
  induction 1 as [|r rs Hd _ IH].
  - exists (@nil ImageData). constructor.
  - destruct Hd as [d Hd], IH as [ds IH].
    exists (d :: ds). by constructor.
Qed.

(** C4.  Over the repository of the spec, a successful listing holds
    exactly the stored images selected by the filter (with [true] those
    with non-empty [tags], with [false] those with empty or absent
    [tags], without a filter all of them), each converted to the
    response model, in the order of the repository; and the listing
    succeeds whenever every stored image converts.  pydantic is assumed
    to validate a [str] as itself for a [str] field. *)
Theorem list_filter_order (tagged : option bool) (st : store) log :
  (∀ s, validate_str (PStr s) = Some s) →
  (∀ resp s',
     list_images tagged (mkState st log) = (inr resp, s') →
     Forall2 (λ r d, convert (raw_of_row r) = inr d)
             (List.filter (selected tagged) st) (data resp) ∧
     id <$> data resp = row_id <$> List.filter (selected tagged) st) ∧
  (Forall (λ r, ∃ d, convert (raw_of_row r) = inr d) st →
   ∃ resp,
     list_images tagged (mkState st log) = (inr resp, mkState st log) ∧
     length (data resp) = length (List.filter (selected tagged) st)).
Proof.
  intros Hstr.
  assert (Hsel : List.filter (tag_matches tagged) st
                 = List.filter (selected tagged) st).
  { apply filter_ext. intros r. apply selected_tag_matches. }
  split.
  - intros resp s' (images & Hall & Hds & _)%list_images_inr.
    cbn in Hall. unfold db_get_all_images in Hall.
    injection Hall as <-. rewrite Hsel in Hds.
    apply converted_rows in Hds. split; [exact Hds|].
    by apply converted_ids.
  - intros Hconv.
    assert (∃ ds, Forall2 (λ r d, convert (raw_of_row r) = inr d)
                          (List.filter (selected tagged) st) ds)
      as [ds Hds].
    { assert (Forall (λ r, ∃ d, convert (raw_of_row r) = inr d)
                     (List.filter (selected tagged) st)) as Hf.
      { apply Forall_forall. intros r [Hr _]%list_elem_of_In%filter_In.
        eapply Forall_forall in Hconv; [exact Hconv|].
        by apply list_elem_of_In. }
      by apply all_convert. }
    exists (mkGetAllImagesResponse
              true
              ("Successfully retrieved " ++ pretty (length ds) ++ " images")
              ds).
    split.
    + apply list_images_inr. eexists. cbn [st_db].
      unfold db_get_all_images. rewrite Hsel.
      split; [reflexivity|]. cbn [data success message].
      split; [by apply converted_rows|done].
    + cbn. symmetry. eapply Forall2_length, Hds.
Qed.

End RepositoryFacts.

(** * The properties on examples *)

Section Witnesses.

Import Repository Instance Examples.

Lemma toggle_not_applied_witness :
  Repository.db_toggle_image_favourite_status [] "nonexistent"
    = (inr false, []) ∧
  Instance.toggle (request "nonexistent") (start []) =
    (inl (HTTPException
            500
            (DetailStr "Internal server error: 404: Image not found or failed to toggle")),
     mkState []
             [(ERROR, "error in /toggle-favourite route: 404: Image not found or failed to toggle")]).
Proof.
  split; [reflexivity|].
  exact (toggle_not_applied
           Repository.db_get_all_images
           Repository.db_toggle_image_favourite_status
           Instance.str_exn (request "nonexistent") (start []) []
           eq_refl).
Defined.

Lemma toggle_refetch_miss_witness :
  Vanishing.db_toggle_image_favourite_status [seeded] "1" = (inr true, []) ∧
  Vanishing.toggle (request "1") (start [seeded]) =
    (inl (HTTPException
            500
            (DetailStr "Internal server error: 'NoneType' object has no attribute 'get'")),
     mkState []
             [(ERROR, "error in /toggle-favourite route: 'NoneType' object has no attribute 'get'")]).
Proof.
  split; [reflexivity|].
  exact (toggle_refetch_miss
           Repository.db_get_all_images
           Vanishing.db_toggle_image_favourite_status
           Instance.str_exn (request "1") (start [seeded]) [] []
           eq_refl eq_refl eq_refl).
Defined.

(** A record without the key is listed, and answered by the toggle, with
    [isFavourite = false]. *)
Lemma isFavourite_defaults_to_false_witness :
  Instance.validate_bool (PBool false) = Some false ∧
  (∃ resp,
     Instance.list_images None (start [unset]) = (inr resp, start [unset]) ∧
     ∃ images,
       Repository.db_get_all_images [unset] None = inr images ∧
       Forall2 (λ (image : record) d,
                  image !! "isFavourite" = None → isFavourite d = false)
               images (data resp)) ∧
  (∃ res,
     Flagless.toggle (request "1") (start [unset])
       = (inr res, start [unset]) ∧
     ∃ images (image : record),
       Repository.db_get_all_images [unset] None = inr images ∧
       next_by_id images "1" = inr (Some image) ∧
       (image !! "isFavourite" = None → tf_isFavourite res = PBool false)).
Proof.
  pose proof (isFavourite_defaults_to_false
                Repository.db_get_all_images
                Flagless.db_toggle_image_favourite_status
                Instance.image_util_parse_metadata
                Instance.validate_str Instance.validate_bool
                Instance.validate_tags Instance.validate_metadata
                Instance.str_exn None (request "1")
                (start [unset]) (start [unset]) eq_refl) as [Hlist Htoggle].
  split; [reflexivity|]. split.
  - eexists. split; [vm_compute; reflexivity|].
    apply (Hlist _ (start [unset])). vm_compute. reflexivity.
  - eexists. split; [vm_compute; reflexivity|].
    apply (Htoggle _ (start [unset])). vm_compute. reflexivity.
Defined.

(** One record with broken metadata fails the whole listing; without it
    the listing returns every record. *)
Lemma list_all_or_nothing_witness :
  (∃ msg,
     Instance.list_images None (start [seeded; broken; labelled]) =
       (inl (HTTPException
               500
               (DetailModel
                  (mkErrorResponse false "Internal server error" msg))),
        start [seeded; broken; labelled])) ∧
  (∃ resp,
     Instance.list_images None (start [seeded; labelled])
       = (inr resp, start [seeded; labelled]) ∧
     length (data resp) = 2%nat).
Proof.
  split.
  - refine (proj1 (list_all_or_nothing
                     Repository.db_get_all_images
                     Instance.image_util_parse_metadata
                     Instance.validate_str Instance.validate_bool
                     Instance.validate_tags Instance.validate_metadata
                     Instance.str_exn None
                     (start [seeded; broken; labelled]) _ eq_refl) _).
    apply Exists_cons_tl, Exists_cons_hd. vm_compute. reflexivity.
  - eexists. split; [vm_compute; reflexivity|].
    refine (proj2 (proj2 (proj2 (list_all_or_nothing
                     Repository.db_get_all_images
                     Instance.image_util_parse_metadata
                     Instance.validate_str Instance.validate_bool
                     Instance.validate_tags Instance.validate_metadata
                     Instance.str_exn None
                     (start [seeded; labelled]) _ eq_refl))
                     _ (start [seeded; labelled]) _)).
    vm_compute. reflexivity.
Defined.

(** With the filter [true] only the labelled image is listed; with
    [false] the other two, in the order of the store. *)
Lemma list_filter_order_witness :
  (∀ s, Instance.validate_str (PStr s) = Some s) ∧
  (∃ resp,
     Instance.list_images (Some true) (start [seeded; labelled; untagged])
       = (inr resp, start [seeded; labelled; untagged]) ∧
     id <$> data resp = ["3"]) ∧
  (∃ resp,
     Instance.list_images (Some false) (start [seeded; labelled; untagged])
       = (inr resp, start [seeded; labelled; untagged]) ∧
     id <$> data resp = ["1"; "4"]).
Proof.
  split; [reflexivity|].
  split; (eexists; split; [vm_compute; reflexivity|]).
  - refine (proj2 (proj1 (list_filter_order
                     Instance.image_util_parse_metadata
                     Instance.validate_str Instance.validate_bool
                     Instance.validate_tags Instance.validate_metadata
                     Instance.str_exn (Some true)
                     [seeded; labelled; untagged] [] (λ s, eq_refl))
                     _ (start [seeded; labelled; untagged]) _)).
    vm_compute. reflexivity.
  - refine (proj2 (proj1 (list_filter_order
                     Instance.image_util_parse_metadata
                     Instance.validate_str Instance.validate_bool
                     Instance.validate_tags Instance.validate_metadata
                     Instance.str_exn (Some false)
                     [seeded; labelled; untagged] [] (λ s, eq_refl))
                     _ (start [seeded; labelled; untagged]) _)).
    vm_compute. reflexivity.
Defined.

(** The Windows path and the POSIX path both download as
    ["photo.jpg"]. *)
Lemma download_filename_last_segment_witness :
  (∃ resp s',
     Instance.download ["C:\images\photo.jpg"] "5" (start [windows])
       = (inr resp, s') ∧
     fr_filename resp = suggested_filename "C:\images\photo.jpg") ∧
  suggested_filename "C:\images\photo.jpg" = "photo.jpg" ∧
  last_path_segment "C:\images\photo.jpg" = "photo.jpg".
Proof.
  destruct (download_filename_last_segment
              Repository.db_get_all_images
              (Instance.os_path_exists ["C:\images\photo.jpg"])
              Instance.str_val Instance.str_exn
              "5" (start [windows]) [raw_of_row windows]
              (raw_of_row windows) "C:\images\photo.jpg"
              eq_refl eq_refl eq_refl eq_refl)
    as (Hrun & Hseg & _ & _ & _ & Hwin & _).
  split; [exact Hrun|]. split; [exact Hwin|].
  rewrite <- Hseg. exact Hwin.
Defined.

Lemma download_media_type_witness :
  ∃ resp s',
    Instance.download ["/var/images/photo.jpg"] "1" (start [seeded])
      = (inr resp, s') ∧
    fr_media_type resp = "application/octet-stream".
Proof.
  eexists _, _. split; [vm_compute; reflexivity|].
  refine (download_media_type
            Repository.db_get_all_images
            (Instance.os_path_exists ["/var/images/photo.jpg"])
            Instance.str_val Instance.str_exn
            "1" (start [seeded]) _ _ _).
  vm_compute. reflexivity.
Defined.

Lemma repository_no_http (st : store) : no_http (db_get_all_images st).
Proof. intros tagged e. discriminate. Qed.

Lemma os_path_exists_no_http files : no_http (Instance.os_path_exists files).
Proof. intros [] e; cbn; try discriminate; by intros [= <-]. Qed.

(** An unknown id and a missing file both fail with 404, with their own
    log lines. *)
Lemma download_not_found_witness :
  Instance.download [] "9" (start [seeded]) =
    (inl (HTTPException 404 (DetailStr "Image not found")),
     mkState [seeded]
             [(INFO, "Attempting to download image with ID: 9");
              (ERROR, "Image ID 9 not found in database")]) ∧
  Instance.download [] "1" (start [seeded]) =
    (inl (HTTPException 404 (DetailStr "File not found on disk")),
     mkState [seeded]
             [(INFO, "Attempting to download image with ID: 1");
              (INFO, "Found image. Path: /var/images/photo.jpg");
              (ERROR, "File does not exist on disk at path: /var/images/photo.jpg")]).
Proof.
  split.
  - refine (proj1 (proj2 (download_not_found
              Repository.db_get_all_images (Instance.os_path_exists [])
              Instance.str_val Instance.str_exn "9" (start [seeded])
              repository_no_http (os_path_exists_no_http []))) _).
    exists [raw_of_row seeded]. split; reflexivity.
  - refine (proj1 (proj2 (proj2 (download_not_found
              Repository.db_get_all_images (Instance.os_path_exists [])
              Instance.str_val Instance.str_exn "1" (start [seeded])
              repository_no_http (os_path_exists_no_http []))))
              (PStr "/var/images/photo.jpg") _).
    exists [raw_of_row seeded], (raw_of_row seeded).
    repeat split; reflexivity.
Defined.

(** A failed listing answers 500 with the structured body; a download
    with an unknown id answers 404 with a plain string. *)
Lemma errors_by_endpoint_witness :
  (∃ msg,
     fst (Instance.list_images None (start [broken])) =
       inl (HTTPException
              500
              (DetailModel
                 (mkErrorResponse false "Internal server error" msg)))) ∧
  (∃ status_code msg,
     fst (Instance.download [] "9" (start [broken])) =
       inl (HTTPException status_code (DetailStr msg)) ∧
     (status_code = 404 ∨ status_code = 500)%Z).
Proof.
  destruct (errors_by_endpoint
              Repository.db_get_all_images
              Repository.db_toggle_image_favourite_status
              Instance.image_util_parse_metadata
              Instance.validate_str Instance.validate_bool
              Instance.validate_tags Instance.validate_metadata
              (Instance.os_path_exists [])
              Instance.str_val Instance.str_exn
              None (request "1") "9" (start [broken])
              repository_no_http (os_path_exists_no_http []))
    as (Hlist & _ & Hdownload).
  split.
  - destruct (Instance.list_images None (start [broken])) as [[e|resp] s']
      eqn:Hrun; [|vm_compute in Hrun; discriminate Hrun].
    destruct (Hlist e s') as [msg ->]; [exact Hrun|].
    exists msg. reflexivity.
  - destruct (Instance.download [] "9" (start [broken])) as [[e|resp] s']
      eqn:Hrun; [|vm_compute in Hrun; discriminate Hrun].
    destruct (Hdownload e s') as (status_code & msg & -> & Hcode);
      [exact Hrun|].
    exists status_code, msg. split; [reflexivity|exact Hcode].
Defined.

(** The seeded image of the spec: the first toggle answers [true], the
    second [false] again. *)
Lemma toggle_twice_witness :
  ∃ st1 st2,
    Instance.toggle (request "1") (start [seeded]) =
      (inr (mkToggleFavouriteResult true "1" (PBool true)), start st1) ∧
    Instance.toggle (request "1") (start st1) =
      (inr (mkToggleFavouriteResult true "1" (PBool false)), start st2).
Proof.
  destruct (toggle_twice Instance.str_exn [seeded] [] "1" seeded eq_refl)
    as (st1 & st2 & Hrun1 & Hrun2 & _).
  exists st1, st2. split; [exact Hrun1|exact Hrun2].
Defined.

(** C7 as the spec states it fails: the error of a download with an
    unknown id has a plain string as its detail, not a body
    [{success: false, error, message}]. *)
Lemma download_error_not_structured :
  ∃ e s',
    Instance.download [] "9" (start [seeded]) = (inl e, s') ∧
    ¬ structured_error e.
Proof.
  eexists _, _. split; [vm_compute; reflexivity|].
  intros (status_code & body & Heq & _). discriminate Heq.
Qed.

End Witnesses.

(** * Further properties of the handlers *)

Section EdgeCases.

Context {db : Type}.
Variable db_get_all_images : db → option bool → exn + list record.
Variable db_toggle_image_favourite_status :
  db → string → (exn + bool) * db.
Variable image_util_parse_metadata : pyval → exn + pyval.
Variable validate_str : pyval → option string.
Variable validate_bool : pyval → option bool.
Variable validate_tags : pyval → option (option (list string)).
Variable validate_metadata : pyval → option MetadataModel.
Variable os_path_exists : pyval → exn + bool.
Variable str_val : pyval → string.
Variable str_exn : exn → string.

Local Abbreviation convert :=
  (image_to_ImageData image_util_parse_metadata validate_str validate_bool
     validate_tags validate_metadata).
Local Abbreviation list_images :=
  (get_all_images db_get_all_images image_util_parse_metadata validate_str
     validate_bool validate_tags validate_metadata str_exn).
Local Abbreviation toggle :=
  (toggle_favourite db_get_all_images db_toggle_image_favourite_status
     str_exn).
Local Abbreviation download :=
  (download_image db_get_all_images os_path_exists str_val str_exn).
Local Abbreviation list_failure := (list_error str_exn).
Local Abbreviation failure := (internal_error str_exn).

(** *** Records in a listing *)

Lemma ImageData_init_fields i p f t m tg fv ts d :
  ImageData_init validate_str validate_bool validate_tags validate_metadata
                 i p f t m tg fv ts = inr d →
  validate_str i = Some (id d) ∧
  validate_str p = Some (path d) ∧
  validate_str f = Some (folder_id d) ∧
  validate_str t = Some (thumbnailPath d) ∧
  validate_metadata m = Some (metadata d) ∧
  validate_bool tg = Some (isTagged d) ∧
  validate_bool fv = Some (isFavourite d) ∧
  validate_tags ts = Some (tags d).
Proof.
  unfold ImageData_init.
  destruct (validate_str i), (validate_str p), (validate_str f),
    (validate_str t), (validate_metadata m), (validate_bool tg),
    (validate_bool fv), (validate_tags ts); intros [= <-]; done.
Qed.

(** The entries a converted record must hold. *)
Lemma convert_fields (image : record) d :
  convert image = inr d →
  image !! "id" ≫= validate_str = Some (id d) ∧
  image !! "path" ≫= validate_str = Some (path d) ∧
  image !! "folder_id" ≫= validate_str = Some (folder_id d) ∧
  image !! "thumbnailPath" ≫= validate_str = Some (thumbnailPath d) ∧
  image !! "isTagged" ≫= validate_bool = Some (isTagged d) ∧
  image !! "tags" ≫= validate_tags = Some (tags d) ∧
  is_Some (image !! "metadata") ∧
  validate_bool (get image "isFavourite" (PBool false))
    = Some (isFavourite d).
Proof.
  intros Hc. unfold image_to_ImageData, getitem, mbind, exn_bind in Hc.
  destruct (image !! "id") as [i|]; [|done].
  destruct (image !! "path") as [p|]; [|done].
  destruct (image !! "folder_id") as [f|]; [|done].
  destruct (image !! "thumbnailPath") as [t|]; [|done].
  destruct (image !! "metadata") as [raw|]; [|done].
  destruct (image_util_parse_metadata raw) as [e|parsed]; [done|].
  destruct (image !! "isTagged") as [tg|]; [|done].
  destruct (image !! "tags") as [ts|]; [|done].
  apply ImageData_init_fields in Hc as (? & ? & ? & ? & ? & ? & ? & ?).
  cbn. repeat split; eauto.
Qed.

Lemma convert_needs_key (image : record) (k : string) d :
  k ∈ required_keys → convert image = inr d → is_Some (image !! k).
Proof.
  intros Hk (Hid & Hpath & Hfolder & Hthumb & Htagged & Htags & Hmeta & _)
    %convert_fields.
  unfold required_keys in Hk.
  repeat (apply elem_of_cons in Hk as [->|Hk]);
    [..|by apply elem_of_nil in Hk]; try done.
  all: match goal with
       | H : ?o ≫= _ = Some _ |- is_Some ?o => by destruct o
       end.
Qed.

(** A record that does not convert fails the listing it is in. *)
Lemma unconverted_fails_listing tagged (s : state db) images image e :
  db_get_all_images (st_db s) tagged = inr images →
  image ∈ images →
  convert image = inl e →
  ∃ msg,
    list_images tagged s =
      (inl (HTTPException
              500
              (DetailModel
                 (mkErrorResponse false "Internal server error" msg))),
       s).
Proof.
  intros Hall Hin He. rewrite list_images_run, Hall.
  destruct (map_exn_inl convert images) as [e' He'].
  { apply Exists_exists. exists image. eauto. }
  rewrite He'. unfold list_error. eauto.
Qed.

(** X1.  Each element of a successful list response is built from the
    record at the same position of what the repository returned: its
    [id], [path], [folder_id], [thumbnailPath], [isTagged] and [tags] are
    the validated entries of that record.  In particular [isTagged] is
    the record's own entry, not recomputed from [tags]. *)
Theorem list_mirrors_records tagged (s : state db) resp s' :
  list_images tagged s = (inr resp, s') →
  ∃ images,
    db_get_all_images (st_db s) tagged = inr images ∧
    Forall2 (λ (image : record) d,
               image !! "id" ≫= validate_str = Some (id d) ∧
               image !! "path" ≫= validate_str = Some (path d) ∧
               image !! "folder_id" ≫= validate_str = Some (folder_id d) ∧
               image !! "thumbnailPath" ≫= validate_str
                 = Some (thumbnailPath d) ∧
               image !! "isTagged" ≫= validate_bool = Some (isTagged d) ∧
               image !! "tags" ≫= validate_tags = Some (tags d))
            images (data resp).
Proof.
  intros (images & Hall & Hds & _)%list_images_inr.
  exists images. split; [done|].
  apply map_exn_inr in Hds. eapply Forall2_impl; [exact Hds|].
  intros image d Hc. cbn beta in Hc.
  apply convert_fields in Hc as (? & ? & ? & ? & ? & ? & _). done.
Qed.

(** X2.  The seven keys read with [image[key]] are all required: one
    record that lacks any of them makes the whole listing fail with
    status 500 and the structured body.  (Only ["isFavourite"], read with
    [.get], may be missing.) *)
Theorem missing_key_fails_listing
  tagged (s : state db) images (image : record) (k : string) :
  db_get_all_images (st_db s) tagged = inr images →
  image ∈ images →
  k ∈ required_keys →
  image !! k = None →
  ∃ msg,
    list_images tagged s =
      (inl (HTTPException
              500
              (DetailModel
                 (mkErrorResponse false "Internal server error" msg))),
       s).
Proof.
  intros Hall Hin Hk Hnone.
  destruct (convert image) as [e|d] eqn:Hc.
  - by eapply unconverted_fails_listing.
  - apply (convert_needs_key image k d Hk) in Hc as [v Hv]. congruence.
Qed.

(** X3.  The default of [image.get("isFavourite", False)] covers a
    missing key only: a record whose ["isFavourite"] entry is present but
    is not accepted as a [bool] makes the whole listing fail with status
    500. *)
Theorem invalid_flag_fails_listing
  tagged (s : state db) images (image : record) (v : pyval) :
  db_get_all_images (st_db s) tagged = inr images →
  image ∈ images →
  image !! "isFavourite" = Some v →
  validate_bool v = None →
  ∃ msg,
    list_images tagged s =
      (inl (HTTPException
              500
              (DetailModel
                 (mkErrorResponse false "Internal server error" msg))),
       s).
Proof.
  intros Hall Hin Hv Hbad.
  destruct (convert image) as [e|d] eqn:Hc.
  - by eapply unconverted_fails_listing.
  - apply convert_fields in Hc as (_ & _ & _ & _ & _ & _ & _ & Hfav).
    unfold get in Hfav. rewrite Hv in Hfav. cbn in Hfav. congruence.
Qed.

(** X4.  The comprehension stops at the first record that raises: when
    the records before it convert, the message of the 500 quotes the
    exception of that record, whatever follows it in the list. *)
Theorem list_quotes_first_failure
  tagged (s : state db) (pre post : list record) (bad : record) e :
  db_get_all_images (st_db s) tagged = inr (pre ++ bad :: post)%list →
  Forall (λ image, ∃ d, convert image = inr d) pre →
  convert bad = inl e →
  list_images tagged s =
    (inl (HTTPException
            500
            (DetailModel
               (mkErrorResponse false "Internal server error"
                  ("Unable to retrieve images: " ++ str_exn e)))),
     s).
Proof.
  intros Hall Hpre Hbad. rewrite list_images_run, Hall. clear Hall.
  assert (map_exn convert (pre ++ bad :: post)%list = inl e) as ->; [|done].
  induction Hpre as [|image pre [d Hd] _ IH]; cbn; unfold mbind, exn_bind.
  - by rewrite Hbad.
  - by rewrite Hd, IH.
Qed.

(** X5.  [get_all_images] writes no log line and leaves the state as it
    found it, whatever the outcome; and an exception raised by the
    repository itself is answered with status 500, its text quoted in the
    message. *)
Theorem list_is_silent tagged (s : state db) :
  snd (list_images tagged s) = s ∧
  ∀ e,
    db_get_all_images (st_db s) tagged = inl e →
    fst (list_images tagged s) =
      inl (HTTPException
             500
             (DetailModel
                (mkErrorResponse false "Internal server error"
                   ("Unable to retrieve images: " ++ str_exn e)))).
Proof.
  rewrite list_images_run. split.
  - destruct (db_get_all_images _ _) as [e|images]; [done|].
    by destruct (map_exn _ images).
  - by intros e ->.
Qed.

(** *** The generator [next(img for img in images if img["id"] == ...)] *)

Lemma next_by_id_skip (pre rest : list record) (image_id : string) :
  Forall (passed_over image_id) pre →
  next_by_id (pre ++ rest) image_id = next_by_id rest image_id.
Proof.
  induction 1 as [|img pre (v & Hv & Hne) _ IH]; [done|].
  cbn. unfold getitem, mbind, exn_bind. by rewrite Hv, Hne.
Qed.

(** X6.  The generator returns the first record whose id equals the one
    asked for.  It returns [None] only after passing over every record,
    and it raises, with [KeyError('id')], exactly when a record without
    ["id"] comes before any match: such a record after the match is never
    looked at. *)
Theorem next_by_id_first_match (images : list record) (image_id : string) :
  match next_by_id images image_id with
  | inr (Some img) =>
      ∃ pre post v,
        images = (pre ++ img :: post)%list ∧
        Forall (passed_over image_id) pre ∧
        img !! "id" = Some v ∧ eq_str v image_id = true
  | inr None => Forall (passed_over image_id) images
  | inl e =>
      e = KeyError "id" ∧
      ∃ pre bad post,
        images = (pre ++ bad :: post)%list ∧
        Forall (passed_over image_id) pre ∧
        bad !! "id" = None
  end.
Proof.
  induction images as [|img rest IH]; [by constructor|].
  cbn [next_by_id]. unfold getitem, mbind, exn_bind.
  destruct (img !! "id") as [v|] eqn:Hid.
  - destruct (eq_str v image_id) eqn:Heq.
    + exists [], rest, v. done.
    + assert (passed_over image_id img) as Hpass by (by exists v).
      destruct (next_by_id rest image_id) as [e|[found|]].
      * destruct IH as (-> & pre & bad & post & -> & Hpre & Hbad).
        split; [done|]. exists (img :: pre), bad, post.
        split; [done|]. split; [by constructor|done].
      * destruct IH as (pre & post & w & -> & Hpre & Hw & Hmatch).
        exists (img :: pre), post, w.
        split; [done|]. split; [by constructor|done].
      * by constructor.
  - split; [done|]. exists [], img, rest. done.
Qed.

(** *** Toggle *)

(** X7.  A successful toggle writes nothing to the log and answers
    [success: True] with the id of the request; every failure, whatever
    its cause, answers status 500 and writes exactly one error line, and
    the line and the detail of the response quote the same exception. *)
Theorem toggle_logs_failures_once
  (req : ToggleFavouriteRequest) (s : state db) :
  (∀ res s',
     toggle req s = (inr res, s') →
     tf_success res = true ∧ tf_image_id res = image_id req ∧
     st_log s' = st_log s) ∧
  (∀ e s',
     toggle req s = (inl e, s') →
     ∃ cause,
       e = HTTPException
             500 (DetailStr ("Internal server error: " ++ str_exn cause)) ∧
       st_log s' =
         (st_log s ++ [(ERROR, ("error in /toggle-favourite route: "
                                  ++ str_exn cause)%string)])%list).
Proof.
  split.
  - intros res s' (d & images & img & _ & _ & _ & -> & ->)%toggle_inr. done.
  - intros e s'. rewrite toggle_run. cbv zeta. unfold internal_error.
    destruct (db_toggle_image_favourite_status _ _) as [[e'|[]] d].
    + intros [= <- <-]. eauto.
    + destruct (db_get_all_images d None) as [e'|images].
      { intros [= <- <-]. eauto. }
      destruct (next_by_id images _) as [e'|[img|]]; [|done|].
      all: intros [= <- <-]; eauto.
    + intros [= <- <-]. eauto.
Qed.

(** X8.  The handler never undoes the write: whatever it answers, the
    repository is left in the state the toggle call produced.  In
    particular a toggle that applied stays applied when the re-read then
    fails and the client is told 500. *)
Theorem toggle_is_not_rolled_back
  (req : ToggleFavouriteRequest) (s : state db) :
  st_db (snd (toggle req s))
    = snd (db_toggle_image_favourite_status (st_db s) (image_id req)) ∧
  ∀ d e,
    db_toggle_image_favourite_status (st_db s) (image_id req)
      = (inr true, d) →
    db_get_all_images d None = inl e →
    toggle req s =
      (inl (HTTPException
              500 (DetailStr ("Internal server error: " ++ str_exn e))),
       mkState d (st_log s ++ [(ERROR, "error in /toggle-favourite route: "
                                         ++ str_exn e)])).
Proof.
  rewrite toggle_run. cbv zeta. split.
  - destruct (db_toggle_image_favourite_status _ _) as [[e|[]] d];
      [done| |done].
    destruct (db_get_all_images d None) as [e|images]; [done|].
    by destruct (next_by_id images _) as [e|[img|]].
  - intros d e -> ->. done.
Qed.

(** X9.  The toggle response carries the ["isFavourite"] entry of the
    re-read record as it is stored, without validation: a value that is
    not a [bool] (a stored [None], say) is returned as such. *)
Theorem toggle_returns_stored_value
  (req : ToggleFavouriteRequest) (s : state db) d images (img : record) v :
  db_toggle_image_favourite_status (st_db s) (image_id req)
    = (inr true, d) →
  db_get_all_images d None = inr images →
  next_by_id images (image_id req) = inr (Some img) →
  img !! "isFavourite" = Some v →
  toggle req s =
    (inr (mkToggleFavouriteResult true (image_id req) v),
     mkState d (st_log s)).
Proof.
  intros Hdb Hall Hnext Hv. rewrite toggle_run, Hdb, Hall, Hnext.
  unfold get. by rewrite Hv.
Qed.

(** *** Download *)

(** Closes a goal on the state a branch of [download_image] ends in. *)
Local Ltac log_tail :=
  cbn; split; [done|]; rewrite <- ?app_assoc; cbn; eexists; reflexivity.

(** X10.  Every download writes the line of the attempt first, only
    appends to the log, and leaves the repository as it found it,
    whatever the outcome. *)
Theorem download_logs_attempt_first (image_id : string) (s : state db) :
  st_db (snd (download image_id s)) = st_db s ∧
  ∃ more,
    st_log (snd (download image_id s)) =
      (st_log s ++
         (INFO, ("Attempting to download image with ID: " ++ image_id)
                  %string) :: more)%list.
Proof.
  rewrite download_run. cbv zeta.
  destruct (db_get_all_images _ _) as [e|images];
    [destruct (is_HTTPException e); log_tail|].
  destruct (next_by_id images image_id) as [e|image];
    [destruct (is_HTTPException e); log_tail|].
  destruct (py_not image); [log_tail|].
  destruct (get_path image) as [e|file_path];
    [destruct (is_HTTPException e); log_tail|].
  destruct (os_path_exists file_path) as [e|[]];
    [destruct (is_HTTPException e); log_tail| |log_tail].
  destruct (replace_backslashes file_path) as [e|normalized];
    [destruct (is_HTTPException e); log_tail|log_tail].
Qed.

(** X11.  [except HTTPException as he: raise he]: an [HTTPException]
    raised by the repository reaches the client unchanged and without an
    error line, while any other exception it raises is logged and
    answered with status 500. *)
Theorem download_reraises_http_exception
  (image_id : string) (s : state db) e :
  db_get_all_images (st_db s) None = inl e →
  let attempt :=
    (INFO, "Attempting to download image with ID: " ++ image_id) in
  download image_id s =
    if is_HTTPException e
    then (inl e, mkState (st_db s) (st_log s ++ [attempt]))
    else
      (inl (HTTPException
              500 (DetailStr ("Internal server error: " ++ str_exn e))),
       mkState (st_db s)
               (st_log s ++
                  [attempt;
                   (ERROR, "Error downloading image " ++ image_id ++ ": "
                             ++ str_exn e)])).
Proof.
  intros Hall attempt. rewrite download_run, Hall. cbv zeta.
  destruct (is_HTTPException e); [done|].
  by rewrite <- app_assoc.
Qed.

(** X12.  A record without ["id"] that the scan reaches before a match
    makes the download fail with status 500, quoting [KeyError('id')],
    even when a record with the id follows it. *)
Theorem download_record_without_id
  (image_id : string) (s : state db) (pre post : list record) (bad : record) :
  db_get_all_images (st_db s) None = inr (pre ++ bad :: post)%list →
  Forall (passed_over image_id) pre →
  bad !! "id" = None →
  download image_id s =
    (inl (HTTPException
            500 (DetailStr ("Internal server error: "
                              ++ str_exn (KeyError "id")))),
     mkState (st_db s)
             (st_log s ++
                [(INFO, "Attempting to download image with ID: " ++ image_id);
                 (ERROR, "Error downloading image " ++ image_id ++ ": "
                           ++ str_exn (KeyError "id"))])).
Proof.
  intros Hall Hpre Hbad. rewrite download_run, Hall. cbv zeta.
  rewrite (next_by_id_skip _ _ _ Hpre). cbn [next_by_id].
  unfold getitem, mbind, exn_bind. rewrite Hbad. cbn.
  by rewrite <- app_assoc.
Qed.

(** X13.  A record found by its id but without ["path"] makes the
    download fail with status 500, quoting [KeyError('path')]; it is not
    reported as 404. *)
Theorem download_record_without_path
  (image_id : string) (s : state db) images (img : record) :
  db_get_all_images (st_db s) None = inr images →
  next_by_id images image_id = inr (Some img) →
  img !! "path" = None →
  download image_id s =
    (inl (HTTPException
            500 (DetailStr ("Internal server error: "
                              ++ str_exn (KeyError "path")))),
     mkState (st_db s)
             (st_log s ++
                [(INFO, "Attempting to download image with ID: " ++ image_id);
                 (ERROR, "Error downloading image " ++ image_id ++ ": "
                           ++ str_exn (KeyError "path"))])).
Proof.
  intros Hall Hnext Hpath. rewrite download_run, Hall, Hnext. cbv zeta.
  rewrite (py_not_found _ _ _ Hnext). cbn [get_path]. unfold getitem.
  rewrite Hpath. cbn. by rewrite <- app_assoc.
Qed.


(** X15.  A download succeeds exactly when the first record with the id
    holds a [str] path for which [os.path.exists] is true.  The response
    then serves the stored path unchanged (only the file name is taken
    from the normalized path), and the log gains the attempt and the
    path found. *)
Theorem download_succeeds_iff
  (image_id : string) (s : state db) (resp : FileResponse) :
  (∃ s', download image_id s = (inr resp, s')) ↔
  ∃ images (img : record) p,
    db_get_all_images (st_db s) None = inr images ∧
    next_by_id images image_id = inr (Some img) ∧
    img !! "path" = Some (PStr p) ∧
    os_path_exists (PStr p) = inr true ∧
    resp = mkFileResponse (PStr p) (suggested_filename p)
                          "application/octet-stream".
Proof.
  split.
  - intros [s' Hrun]. by apply download_inr in Hrun.
  - intros (images & img & p & Hall & Hnext & Hpath & Hexists & ->).
    eexists. by eapply download_found.
Qed.

End EdgeCases.

(** *** File names *)

Lemma split_nonempty (c : ascii) (s : string) : PyStr.split c s ≠ [].
Proof.
  destruct s as [|a s]; cbn; [done|].
  destruct (Ascii.eqb a c); [done|]. by destruct (PyStr.split c s).
Qed.

(** Splitting at a separator splits the segments. *)
Lemma split_app (c : ascii) (a b : string) :
  PyStr.split c (a +:+ String c b)
    = (PyStr.split c a ++ PyStr.split c b)%list.
Proof.
  induction a as [|x a IH].
  - change (EmptyString +:+ String c b) with (String c b).
    cbn [PyStr.split]. by rewrite Ascii.eqb_refl.
  - change (String x a +:+ String c b) with (String x (a +:+ String c b)).
    cbn [PyStr.split]. rewrite IH. destruct (Ascii.eqb x c); [done|].
    pose proof (split_nonempty c a).
    by destruct (PyStr.split c a).
Qed.

Lemma replace_app (old new : ascii) (a b : string) :
  PyStr.replace old new (a +:+ b)
    = PyStr.replace old new a +:+ PyStr.replace old new b.
Proof.
  induction a as [|x a IH]; [done|].
  change (String x a +:+ b) with (String x (a +:+ b)).
  cbn [PyStr.replace]. rewrite IH. done.
Qed.

Lemma replace_without (old new : ascii) (s : string) :
  PyStr.contains old s = false → PyStr.replace old new s = s.
Proof.
  induction s as [|a s IH]; cbn; [done|].
  intros [-> Hs]%orb_false_elim. by rewrite IH.
Qed.

Lemma last_app_nonempty {A} (l1 l2 : list A) (d : A) :
  l2 ≠ [] → List.last (l1 ++ l2) d = List.last l2 d.
Proof.
  intros Hne. induction l1 as [|x l1 IH]; [done|].
  cbn. rewrite <- IH. destruct (l1 ++ l2)%list eqn:Happ; [|done].
  by apply app_eq_nil in Happ as [_ ->].
Qed.

(** X16.  Joining a directory and a file name with either separator and
    taking the suggested file name gives the file name back, whatever
    separators the directory holds.  With an empty name: a path that ends
    in a separator is downloaded under the empty file name. *)
Theorem suggested_filename_join (dir name : string) (sep : ascii) :
  sep = slash ∨ sep = backslash →
  PyStr.contains slash name = false →
  PyStr.contains backslash name = false →
  suggested_filename (dir +:+ String sep name) = name.
Proof.
  intros Hsep Hslash Hback.
  rewrite suggested_filename_last_segment. unfold last_path_segment.
  rewrite replace_app. cbn [PyStr.replace].
  rewrite (replace_without backslash slash name Hback).
  assert ((if Ascii.eqb sep backslash then slash else sep) = slash) as ->.
  { by destruct Hsep as [->| ->]. }
  rewrite split_app, last_app_nonempty by apply split_nonempty.
  by rewrite (split_no_sep slash name Hslash).
Qed.

(** X17.  A path without separators is its own file name, and taking the
    file name twice changes nothing. *)
Theorem suggested_filename_fixed_point (file_path : string) :
  (PyStr.contains slash file_path = false →
   PyStr.contains backslash file_path = false →
   suggested_filename file_path = file_path) ∧
  suggested_filename (suggested_filename file_path)
    = suggested_filename file_path.
Proof.
  assert (Hid : ∀ p,
    PyStr.contains slash p = false →
    PyStr.contains backslash p = false →
    suggested_filename p = p).
  { intros p Hslash Hback.
    rewrite suggested_filename_last_segment. unfold last_path_segment.
    rewrite (replace_without backslash slash p Hback).
    by rewrite (split_no_sep slash p Hslash). }
  split; [apply Hid|].
  apply Hid.
  - apply suggested_filename_no_slash.
  - apply suggested_filename_no_backslash.
Qed.

(** * The further properties on examples *)

Section EdgeWitnesses.

Import Repository Instance Examples Malformed.

(** A record marked as tagged without [tags] is listed as it is. *)
Lemma list_mirrors_records_witness :
  ∃ resp,
    RawStore.list_images None (mkState [tagged_without_tags] [])
      = (inr resp, mkState [tagged_without_tags] []) ∧
    (isTagged <$> data resp = [true] ∧ tags <$> data resp = [None]) ∧
    ∃ images,
      RawStore.db_get_all_images [tagged_without_tags] None = inr images ∧
      Forall2 (λ (image : record) d,
                 image !! "id" ≫= Instance.validate_str = Some (id d) ∧
                 image !! "path" ≫= Instance.validate_str = Some (path d) ∧
                 image !! "folder_id" ≫= Instance.validate_str
                   = Some (folder_id d) ∧
                 image !! "thumbnailPath" ≫= Instance.validate_str
                   = Some (thumbnailPath d) ∧
                 image !! "isTagged" ≫= Instance.validate_bool
                   = Some (isTagged d) ∧
                 image !! "tags" ≫= Instance.validate_tags = Some (tags d))
              images (data resp).
Proof.
  eexists. split; [vm_compute; reflexivity|]. split; [by vm_compute|].
  refine (list_mirrors_records
            RawStore.db_get_all_images Instance.image_util_parse_metadata
            Instance.validate_str Instance.validate_bool
            Instance.validate_tags Instance.validate_metadata
            Instance.str_exn None (mkState [tagged_without_tags] [])
            _ (mkState [tagged_without_tags] []) _).
  vm_compute. reflexivity.
Defined.

(** A record without ["tags"] fails the listing of the good record
    before it. *)
Lemma missing_key_fails_listing_witness :
  ∃ msg,
    RawStore.list_images None (mkState [good; no_tags] []) =
      (inl (HTTPException
              500
              (DetailModel
                 (mkErrorResponse false "Internal server error" msg))),
       mkState [good; no_tags] []).
Proof.
  refine (missing_key_fails_listing
            RawStore.db_get_all_images Instance.image_util_parse_metadata
            Instance.validate_str Instance.validate_bool
            Instance.validate_tags Instance.validate_metadata
            Instance.str_exn None (mkState [good; no_tags] [])
            [good; no_tags] no_tags "tags" eq_refl _ _ _).
  - apply list_elem_of_further, list_elem_of_here.
  - unfold required_keys. do 6 apply list_elem_of_further.
    apply list_elem_of_here.
  - vm_compute. reflexivity.
Defined.

(** A stored [None] flag fails the listing. *)
Lemma invalid_flag_fails_listing_witness :
  ∃ msg,
    RawStore.list_images None (mkState [null_flag] []) =
      (inl (HTTPException
              500
              (DetailModel
                 (mkErrorResponse false "Internal server error" msg))),
       mkState [null_flag] []).
Proof.
  refine (invalid_flag_fails_listing
            RawStore.db_get_all_images Instance.image_util_parse_metadata
            Instance.validate_str Instance.validate_bool
            Instance.validate_tags Instance.validate_metadata
            Instance.str_exn None (mkState [null_flag] [])
            [null_flag] null_flag PNone eq_refl _ _ eq_refl).
  - apply list_elem_of_here.
  - vm_compute. reflexivity.
Defined.

(** The record without ["tags"] is the first to fail: the message names
    that key, although the record after it has broken metadata. *)
Lemma list_quotes_first_failure_witness :
  RawStore.list_images
    None (mkState [good; no_tags; raw_of_row broken] []) =
    (inl (HTTPException
            500
            (DetailModel
               (mkErrorResponse false "Internal server error"
                                "Unable to retrieve images: 'tags'"))),
     mkState [good; no_tags; raw_of_row broken] []).
Proof.
  refine (list_quotes_first_failure
            RawStore.db_get_all_images Instance.image_util_parse_metadata
            Instance.validate_str Instance.validate_bool
            Instance.validate_tags Instance.validate_metadata
            Instance.str_exn None
            (mkState [good; no_tags; raw_of_row broken] [])
            [good] [raw_of_row broken] no_tags (KeyError "tags")
            eq_refl _ _).
  - constructor; [|constructor]. eexists. vm_compute. reflexivity.
  - vm_compute. reflexivity.
Defined.

(** A repository that is locked: status 500, and nothing is logged. *)
Lemma list_is_silent_witness :
  Failing.list_images None (mkState (OtherException "database is locked") [])
    = (inl (HTTPException
              500
              (DetailModel
                 (mkErrorResponse
                    false "Internal server error"
                    "Unable to retrieve images: database is locked"))),
       mkState (OtherException "database is locked") []).
Proof.
  destruct (list_is_silent
              Failing.db_get_all_images Instance.image_util_parse_metadata
              Instance.validate_str Instance.validate_bool
              Instance.validate_tags Instance.validate_metadata
              Instance.str_exn None
              (mkState (OtherException "database is locked") []))
    as [Hstate Hfail].
  specialize (Hfail _ eq_refl). unfold Failing.list_images.
  match goal with |- ?run = _ => rewrite (surjective_pairing run) end.
  rewrite Hstate, Hfail. reflexivity.
Defined.

(** An unknown id: one error line, quoted in the response. *)
Lemma toggle_logs_failures_once_witness :
  ∃ cause,
    Instance.toggle (request "9") (start [seeded]) =
      (inl (HTTPException
              500
              (DetailStr ("Internal server error: "
                            ++ Instance.str_exn cause))),
       mkState [seeded]
               [(ERROR, "error in /toggle-favourite route: "
                          ++ Instance.str_exn cause)]).
Proof.
  destruct (Instance.toggle (request "9") (start [seeded])) as [[e|res] s']
    eqn:Hrun; [|vm_compute in Hrun; discriminate Hrun].
  destruct (proj2 (toggle_logs_failures_once
                     Repository.db_get_all_images
                     Repository.db_toggle_image_favourite_status
                     Instance.str_exn (request "9") (start [seeded]))
                  e s' Hrun) as (cause & -> & Hlog).
  exists cause. destruct s' as [st log]. cbn in Hlog. subst log.
  assert (st = [seeded]) as ->; [|reflexivity].
  vm_compute in Hrun. by injection Hrun as _ <-.
Defined.

(** The listing is locked: the client is told 500, and the image is a
    favourite all the same. *)
Lemma toggle_is_not_rolled_back_witness :
  Unreadable.toggle (request "1") (start [seeded]) =
    (inl (HTTPException
            500 (DetailStr "Internal server error: database is locked")),
     mkState [flip_favourite seeded]
             [(ERROR, "error in /toggle-favourite route: database is locked")]).
Proof.
  exact (proj2 (toggle_is_not_rolled_back
                  Unreadable.db_get_all_images
                  Repository.db_toggle_image_favourite_status
                  Instance.str_exn (request "1") (start [seeded]))
               [flip_favourite seeded]
               (OtherException "database is locked") eq_refl eq_refl).
Defined.

(** A stored [None] flag is answered as [None]. *)
Lemma toggle_returns_stored_value_witness :
  RawStore.toggle (request "1") (mkState [null_flag] []) =
    (inr (mkToggleFavouriteResult true "1" PNone), mkState [null_flag] []).
Proof.
  refine (toggle_returns_stored_value
            RawStore.db_get_all_images
            RawStore.db_toggle_image_favourite_status Instance.str_exn
            (request "1") (mkState [null_flag] []) [null_flag] [null_flag]
            null_flag PNone eq_refl eq_refl _ _).
  - vm_compute. reflexivity.
  - vm_compute. reflexivity.
Defined.

(** A 503 of the repository passes through; a locked database becomes a
    500. *)
Lemma download_reraises_http_exception_witness :
  Failing.download
    "1" (mkState (HTTPException 503 (DetailStr "maintenance")) []) =
    (inl (HTTPException 503 (DetailStr "maintenance")),
     mkState (HTTPException 503 (DetailStr "maintenance"))
             [(INFO, "Attempting to download image with ID: 1")]) ∧
  Failing.download "1" (mkState (OtherException "database is locked") []) =
    (inl (HTTPException
            500 (DetailStr "Internal server error: database is locked")),
     mkState (OtherException "database is locked")
             [(INFO, "Attempting to download image with ID: 1");
              (ERROR, "Error downloading image 1: database is locked")]).
Proof.
  split.
  - exact (download_reraises_http_exception
             Failing.db_get_all_images (Instance.os_path_exists [])
             Instance.str_val Instance.str_exn "1"
             (mkState (HTTPException 503 (DetailStr "maintenance")) [])
             (HTTPException 503 (DetailStr "maintenance")) eq_refl).
  - exact (download_reraises_http_exception
             Failing.db_get_all_images (Instance.os_path_exists [])
             Instance.str_val Instance.str_exn "1"
             (mkState (OtherException "database is locked") [])
             (OtherException "database is locked") eq_refl).
Defined.

(** The image "3" is stored, but a record without id comes first. *)
Lemma download_record_without_id_witness :
  RawStore.download ["/var/images/cat.jpg"] "3"
                    (mkState [good; no_id; other] []) =
    (inl (HTTPException 500 (DetailStr "Internal server error: 'id'")),
     mkState [good; no_id; other]
             [(INFO, "Attempting to download image with ID: 3");
              (ERROR, "Error downloading image 3: 'id'")]).
Proof.
  refine (download_record_without_id
            RawStore.db_get_all_images
            (Instance.os_path_exists ["/var/images/cat.jpg"])
            Instance.str_val Instance.str_exn "3"
            (mkState [good; no_id; other] []) [good] [other] no_id
            eq_refl _ _).
  - constructor; [|constructor]. exists (PStr "1").
    split; vm_compute; reflexivity.
  - vm_compute. reflexivity.
Defined.

Lemma download_record_without_path_witness :
  RawStore.download [] "1" (mkState [no_path] []) =
    (inl (HTTPException 500 (DetailStr "Internal server error: 'path'")),
     mkState [no_path]
             [(INFO, "Attempting to download image with ID: 1");
              (ERROR, "Error downloading image 1: 'path'")]).
Proof.
  refine (download_record_without_path
            RawStore.db_get_all_images (Instance.os_path_exists [])
            Instance.str_val Instance.str_exn "1" (mkState [no_path] [])
            [no_path] no_path eq_refl _ _).
  - vm_compute. reflexivity.
  - vm_compute. reflexivity.
Defined.


(** The Windows path is served as stored, under the name
    ["photo.jpg"]. *)
Lemma download_succeeds_iff_witness :
  ∃ s',
    Instance.download ["C:\images\photo.jpg"] "5" (start [windows]) =
      (inr (mkFileResponse (PStr "C:\images\photo.jpg") "photo.jpg"
                           "application/octet-stream"), s').
Proof.
  refine (proj2 (download_succeeds_iff
                   Repository.db_get_all_images
                   (Instance.os_path_exists ["C:\images\photo.jpg"])
                   Instance.str_val Instance.str_exn "5" (start [windows])
                   _) _).
  exists [raw_of_row windows], (raw_of_row windows), "C:\images\photo.jpg".
  repeat split; vm_compute; reflexivity.
Defined.

Lemma suggested_filename_join_witness :
  suggested_filename ("C:\images/2024" +:+ String backslash "photo.jpg")
    = "photo.jpg" ∧
  suggested_filename ("/var/images" +:+ String slash "") = "".
Proof.
  split.
  - exact (suggested_filename_join "C:\images/2024" "photo.jpg" backslash
             (or_intror eq_refl) eq_refl eq_refl).
  - exact (suggested_filename_join "/var/images" "" slash
             (or_introl eq_refl) eq_refl eq_refl).
Defined.

Lemma suggested_filename_fixed_point_witness :
  suggested_filename "photo.jpg" = "photo.jpg".
Proof.
  exact (proj1 (suggested_filename_fixed_point "photo.jpg")
               eq_refl eq_refl).
Defined.

End EdgeWitnesses.
